(** * live-market-risk: a shallow embedding of the risk engine

    The Python sources embedded here are
    - [src/returns_engine/returns.py]   (ReturnsEngine)
    - [src/risk_metrics/var_calculator.py] (VaRCalculator)
    - [src/back_testing/validator.py]   (BacktestEngine)
    - [src/stress_testing/scenarios.py] (StressTestEngine)
    - [src/alerts/monitor.py]           (AlertMonitor)
    - [src/data_feed/live_prices.py]    (MarketDataFeed)

    Numbers.  Python floats and numpy float64 are IEEE-754 binary64; they are
    modelled by Rocq's primitive floats, which evaluate bit for bit like the
    interpreter does.  The arithmetic the engines use is collected in the
    interface [Arith]; the engines are written once over that interface and
    are run at the instance [binary64].

    Failure.  A Python function that returns [None] returns [Ok None]; one
    that raises returns [Raise e].  The engines also answer [None] when the
    series they are handed is itself [None]; the model starts from a
    series. *)

From Stdlib Require Import ZArith QArith Lia Floats Permutation Sorted.
From stdpp Require Import gmap strings list pretty sorting.

Set Warnings "-inexact-float".

(* ===================================================================== *)
(** * Python results: values and exceptions                               *)
(* ===================================================================== *)

Inductive exn : Set :=
| IndexError
| ValueError
| KeyError
| ZeroDivisionError
| OverflowError.

Inductive result (A : Type) : Type :=
| Ok (a : A)
| Raise (e : exn).
Arguments Ok {A} a.
Arguments Raise {A} e.

Definition rbind {A B : Type} (r : result A) (k : A -> result B) : result B :=
  match r with
  | Ok a => k a
  | Raise e => Raise e
  end.

Notation "x <-- r ;; k" := (rbind r (fun x => k))
  (at level 100, r at next level, right associativity).

(** A [for] loop over a list whose body may raise. *)
Fixpoint for_each {S A : Type} (body : S -> A -> result S) (s : S) (l : list A)
  : result S :=
  match l with
  | [] => Ok s
  | a :: l' => s' <-- body s a ;; for_each body s' l'
  end.

(* ===================================================================== *)
(** * Arithmetic interface                                                *)
(* ===================================================================== *)

(** [lit q] is the value of the source's floating point literal whose
    decimal expansion is [q]; [of_int] is the conversion of a Python int
    (a literal such as [100], or a count) met in mixed int/float
    arithmetic; [to_int] is [int(x)], which raises ValueError on NaN and
    OverflowError on the infinities. *)
Class Arith (F : Type) : Type := {
  lit : Q -> F;
  of_int : Z -> F;
  fadd : F -> F -> F;
  fsub : F -> F -> F;
  fmul : F -> F -> F;
  fdiv : F -> F -> F;
  fneg : F -> F;
  fabs : F -> F;
  flt : F -> F -> bool;
  feq : F -> F -> bool;
  isnan : F -> bool;
  to_int : F -> result Z
}.

Declare Scope arith_scope.
Delimit Scope arith_scope with A.
Notation "x + y" := (fadd x y) : arith_scope.
Notation "x - y" := (fsub x y) : arith_scope.
Notation "x * y" := (fmul x y) : arith_scope.
Notation "x / y" := (fdiv x y) : arith_scope.
Notation "- x" := (fneg x) : arith_scope.
Notation "x <? y" := (flt x y) : arith_scope.
Notation "x >? y" := (flt y x) : arith_scope.
Notation "x =? y" := (feq x y) : arith_scope.

(** ** binary64 *)

(** Conversion of an integer, rounded to nearest even as CPython does.
    (CPython raises OverflowError beyond the binary64 range, where this
    gives an infinity; no integer in the engines comes near it.) *)
Definition Z2F (z : Z) : float :=
  SF2Prim (binary_normalize prec emax z 0 false).

(** [int(x)]: truncation toward zero; "cannot convert float infinity to
    integer" is an OverflowError, "cannot convert float NaN to integer" a
    ValueError. *)
Definition F2Z (x : float) : result Z :=
  match Prim2SF x with
  | S754_zero _ => Ok 0%Z
  | S754_finite s m e =>
      let a := Z.shiftl (Zpos m) e in
      Ok (if s then (- a)%Z else a)
  | S754_infinity _ => Raise OverflowError
  | S754_nan => Raise ValueError
  end.

(** A decimal literal [n/d] is read as the binary64 nearest to it; the
    correctly rounded quotient of the two (exactly representable) integers
    is that number. *)
Definition float_lit (q : Q) : float :=
  PrimFloat.div (Z2F (Qnum q)) (Z2F (Zpos (Qden q))).

#[export] Instance binary64 : Arith float := {
  lit := float_lit;
  of_int := Z2F;
  fadd := PrimFloat.add;
  fsub := PrimFloat.sub;
  fmul := PrimFloat.mul;
  fdiv := PrimFloat.div;
  fneg := PrimFloat.opp;
  fabs := PrimFloat.abs;
  flt := PrimFloat.ltb;
  feq := PrimFloat.eqb;
  isnan := PrimFloat.is_nan;
  to_int := F2Z
}.

(** The order of binary64 read off the decoded number: a key whose
    lexicographic order is numpy's sorting order ([<], NaN last). *)
Definition sf_is_nan (f : spec_float) : bool :=
  match f with
  | S754_nan => true
  | _ => false
  end.

Definition sf_key (f : spec_float) : Z * Z * Z :=
  match f with
  | S754_nan => (3, 0, 0)
  | S754_infinity false => (2, 0, 0)
  | S754_finite false m e => (1, e, Zpos m)
  | S754_zero _ => (0, 0, 0)
  | S754_finite true m e => (-1, - e, Zneg m)
  | S754_infinity true => (-2, 0, 0)
  end%Z.

Definition lex_lt (a b : Z * Z * Z) : Prop :=
  let '(a1, a2, a3) := a in
  let '(b1, b2, b3) := b in
  (a1 < b1 \/ (a1 = b1 /\ (a2 < b2 \/ (a2 = b2 /\ a3 < b3))))%Z.

(* ===================================================================== *)
(** * Python sequences                                                    *)
(* ===================================================================== *)

Definition len {A : Type} (l : list A) : Z := Z.of_nat (length l).

(** [l[i]] with Python's negative indices. *)
Definition py_index {A : Type} (l : list A) (i : Z) : result A :=
  let j := if (i <? 0)%Z then (i + len l)%Z else i in
  if (j <? 0)%Z then Raise IndexError
  else match l !! Z.to_nat j with
       | Some x => Ok x
       | None => Raise IndexError
       end.

(** [l[:stop]] with Python's clipping and negative stop. *)
Definition py_slice_to {A : Type} (l : list A) (stop : Z) : list A :=
  let s := if (stop <? 0)%Z then Z.max 0 (stop + len l) else stop in
  take (Z.to_nat s) l.

Section Numpy.
Context {F : Type} `{Arith F}.

(** The order numpy sorts floating point numbers by: [<], with NaN last. *)
Definition np_lt (a b : F) : bool :=
  (a <? b)%A || (isnan b && negb (isnan a)).

(** [a] may stand before [b] in a sorted array: [b] is not below [a]. *)
Definition np_le (a b : F) : Prop := np_lt b a = false.

Fixpoint np_insert (x : F) (l : list F) : list F :=
  match l with
  | [] => [x]
  | y :: l' => if np_lt x y then x :: y :: l' else y :: np_insert x l'
  end.

(** [np.sort(a)]. *)
Fixpoint np_sort (l : list F) : list F :=
  match l with
  | [] => []
  | x :: l' => np_insert x (np_sort l')
  end.

(** [a.sum()], accumulated from the left: numpy's own order for fewer
    than eight elements.  (numpy adds eight or more elements in blocks,
    pairwise, which can change the last bits; the statements below that
    depend on the value of a sum evaluate it on fewer than eight elements,
    the others hold whatever the order.) *)
Definition np_sum (l : list F) : F :=
  fold_left fadd l (of_int 0).

(** [a.mean()]: the sum over the count. *)
Definition np_mean (l : list F) : F :=
  (np_sum l / of_int (len l))%A.
End Numpy.

(* ===================================================================== *)
(** * VaRCalculator                                                       *)
(* ===================================================================== *)

Record VarResult (F : Type) : Type := {
  var_return : F;
  var_dollar : F;
  confidence : F;
  method : string
}.
Arguments var_return {F} _.
Arguments var_dollar {F} _.
Arguments confidence {F} _.
Arguments method {F} _.

Record EsResult (F : Type) : Type := {
  es_return : F;
  es_dollar : F;
  es_confidence : F;
  es_method : string
}.
Arguments es_return {F} _.
Arguments es_dollar {F} _.
Arguments es_confidence {F} _.
Arguments es_method {F} _.

(** A value of the metrics dict: the VaR methods store a dict with the
    keys ['var_return'], ['var_dollar']; Expected Shortfall stores one with
    ['es_return'], ['es_dollar']. *)
Inductive metric (F : Type) : Type :=
| VarEntry (r : VarResult F)
| EsEntry (r : EsResult F).
Arguments VarEntry {F} r.
Arguments EsEntry {F} r.

Section VaRCalculator.
Context {F : Type} `{Arith F}.

(** [returns.mean()], [returns.std()] of the series and
    [scipy.stats.norm.ppf], used by the parametric method only. *)
Variable series_mean : list F -> F.
Variable series_std : list F -> F.
Variable norm_ppf : F -> F.

(** [int((1 - confidence_level) * len(sorted_returns))] *)
Definition var_index_of (confidence_level : F) (sorted_returns : list F)
  : result Z :=
  to_int ((of_int 1 - confidence_level) * of_int (len sorted_returns))%A.

(** [sorted_returns[var_index]]: the signed return at the VaR cut-off,
    whose magnitude [historical_var] reports. *)
Definition var_cutoff (returns : list F) (confidence_level : F) : result F :=
  let sorted_returns := np_sort returns in
  var_index <-- var_index_of confidence_level sorted_returns ;;
  py_index sorted_returns var_index.

Definition historical_var (returns : list F) (confidence_level : F)
    (position_value : F) : result (option (VarResult F)) :=
  if (length returns <? 10)%nat then Ok None
  else
    let sorted_returns := np_sort returns in
    var_index <-- var_index_of confidence_level sorted_returns ;;
    var_return <-- py_index sorted_returns var_index ;;
    let var_dollar := fabs (var_return * position_value)%A in
    Ok (Some {| var_return := (fabs var_return * of_int 100)%A;
                var_dollar := var_dollar;
                confidence := confidence_level;
                method := "Historical Simulation" |}).

Definition parametric_var (returns : list F) (confidence_level : F)
    (position_value : F) : result (option (VarResult F)) :=
  if (length returns <? 10)%nat then Ok None
  else
    let mean := series_mean returns in
    let std := series_std returns in
    let z_score := norm_ppf (of_int 1 - confidence_level)%A in
    let var_return := fabs (mean + z_score * std)%A in
    let var_dollar := (var_return * position_value)%A in
    Ok (Some {| var_return := (var_return * of_int 100)%A;
                var_dollar := var_dollar;
                confidence := confidence_level;
                method := "Parametric (Normal)" |}).

Definition expected_shortfall (returns : list F) (confidence_level : F)
    (position_value : F) : result (option (EsResult F)) :=
  if (length returns <? 10)%nat then Ok None
  else
    let sorted_returns := np_sort returns in
    var_index <-- var_index_of confidence_level sorted_returns ;;
    let tail_returns := py_slice_to sorted_returns (var_index + 1) in
    let es_return := fabs (np_mean tail_returns) in
    let es_dollar := (es_return * position_value)%A in
    Ok (Some {| es_return := (es_return * of_int 100)%A;
                es_dollar := es_dollar;
                es_confidence := confidence_level;
                es_method := "Expected Shortfall" |}).

(** [f"{int(conf * 100)}%"] *)
Definition label_of (conf : F) : result string :=
  n <-- to_int (conf * of_int 100)%A ;;
  Ok (pretty n +:+ "%").

(** [if x: metrics[key] = x] *)
Definition store_if {A : Type} (inj : A -> metric F) (key : string)
    (x : option A) (metrics : gmap string (metric F)) : gmap string (metric F) :=
  match x with
  | Some r => <[key := inj r]> metrics
  | None => metrics
  end.

(** One turn of the loop of [calculate_all_metrics]. *)
Definition all_metrics_step (returns : list F) (position_value : F)
    (metrics : gmap string (metric F)) (conf : F)
  : result (gmap string (metric F)) :=
  label <-- label_of conf ;;
  hist_var <-- historical_var returns conf position_value ;;
  let metrics := store_if VarEntry ("var_" +:+ label +:+ "_hist") hist_var metrics in
  param_var <-- parametric_var returns conf position_value ;;
  let metrics := store_if VarEntry ("var_" +:+ label +:+ "_param") param_var metrics in
  es <-- expected_shortfall returns conf position_value ;;
  let metrics := store_if EsEntry ("es_" +:+ label) es metrics in
  Ok metrics.

Definition calculate_all_metrics (returns : list F) (position_value : F)
  : result (gmap string (metric F)) :=
  for_each (all_metrics_step returns position_value) ∅ [lit 0.95; lit 0.99].
End VaRCalculator.

(* ===================================================================== *)
(** * ReturnsEngine                                                       *)
(* ===================================================================== *)

(** The price frame is represented by its ['Close'] column, one entry per
    row.  Missing values, the shifted-in first entry and the outcome of
    [0/0] are NaN, so this engine is stated on binary64 itself. *)
Section ReturnsEngine.
(** [numpy.log] on float64. *)
Variable np_log : float -> float.

(** [s.shift(1)]: every value moves one row down, NaN enters on top. *)
Definition shift1 (s : list float) : list float :=
  take (length s) (PrimFloat.nan :: s).

(** [s.dropna()] *)
Definition dropna (s : list float) : list float :=
  List.filter (fun x => negb (PrimFloat.is_nan x)) s.

Definition calculate_returns (close : list float) : option (list float) :=
  if (length close <? 2)%nat then None
  else
    let returns := map np_log (zip_with PrimFloat.div close (shift1 close)) in
    Some (dropna returns).

(** The series the specification names: [ln(P[t] / P[t-1])] for
    [t = 1 .. n-1], in the order of the prices. *)
Definition log_returns (close : list float) : list float :=
  zip_with (fun p q => np_log (PrimFloat.div p q)) (drop 1 close) close.
End ReturnsEngine.

(* ===================================================================== *)
(** * BacktestEngine                                                      *)
(* ===================================================================== *)

Record KupiecResult (F : Type) : Type := {
  lr_statistic : F;
  critical_value : F;
  p_value : F;
  reject_model : bool;
  interpretation : string
}.
Arguments lr_statistic {F} _.
Arguments critical_value {F} _.
Arguments p_value {F} _.
Arguments reject_model {F} _.
Arguments interpretation {F} _.

Record BacktestReport (F : Type) : Type := {
  breaches : Z;
  total_days : Z;
  breach_rate : F;
  expected_rate : F;
  traffic_light : string;
  traffic_message : string;
  kupiec_result : KupiecResult F
}.
Arguments breaches {F} _.
Arguments total_days {F} _.
Arguments breach_rate {F} _.
Arguments expected_rate {F} _.
Arguments traffic_light {F} _.
Arguments traffic_message {F} _.
Arguments kupiec_result {F} _.

Section BacktestEngine.
Context {F : Type} `{Arith F}.

(** [x ** n] for a float [x] and an int [n]: CPython calls the C library's
    [pow] and raises OverflowError when the result is out of range
    (ZeroDivisionError for a zero base and a negative exponent). *)
Variable py_pow : F -> Z -> result F.
(** [numpy.log] and [scipy.stats.chi2.cdf(_, df=1)]. *)
Variable np_log : F -> F.
Variable chi2_cdf : F -> F.

(** [a / b] on two Python ints: the correctly rounded quotient, which is
    the quotient of the two conversions for ints below 2^53. *)
Definition int_truediv (a b : Z) : result F :=
  if (b =? 0)%Z then Raise ZeroDivisionError
  else Ok (of_int a / of_int b)%A.

Definition count_breaches (returns : list F) (var_threshold : F) : Z :=
  if (length returns =? 0)%nat then 0%Z
  else
    let var_decimal := (var_threshold / of_int 100)%A in
    len (List.filter (fun r => r <? - var_decimal)%A returns).

Definition basel_traffic_light (breaches total_days : Z) (confidence_level : F)
  : string * string :=
  let expected_breaches := (of_int total_days * (of_int 1 - confidence_level))%A in
  if (confidence_level =? lit 0.95)%A then
    if (breaches <=? 4)%Z then ("GREEN", "Model is accurate")
    else if (breaches <=? 9)%Z then ("YELLOW", "Model needs attention")
    else ("RED", "Model is inadequate")
  else
    if (breaches <=? 2)%Z then ("GREEN", "Model is accurate")
    else ("RED", "Model is inadequate").

Definition kupiec_test (breaches total_days : Z) (confidence_level : F)
  : result (KupiecResult F) :=
  let expected_rate := (of_int 1 - confidence_level)%A in
  observed_rate <-- int_truediv breaches total_days ;;
  lr_stat <--
    (if (breaches =? 0)%Z || (breaches =? total_days)%Z then Ok (of_int 0)
     else
       e1 <-- py_pow expected_rate breaches ;;
       e2 <-- py_pow (of_int 1 - expected_rate)%A (total_days - breaches) ;;
       o1 <-- py_pow observed_rate breaches ;;
       o2 <-- py_pow (of_int 1 - observed_rate)%A (total_days - breaches) ;;
       Ok (of_int (-2) * (np_log (e1 * e2) - np_log (o1 * o2)))%A) ;;
  let critical_value := lit 3.841 in
  let p_value := (of_int 1 - chi2_cdf lr_stat)%A in
  let reject := (lr_stat >? critical_value)%A in
  Ok {| lr_statistic := lr_stat;
        critical_value := critical_value;
        p_value := p_value;
        reject_model := reject;
        interpretation := if reject then "Reject model" else "Accept model" |}.

(** One turn of the loop of [backtest_results]; a missing key is the
    [continue]. *)
Definition backtest_step (returns : list F) (var_metrics : gmap string (metric F))
    (results : gmap string (BacktestReport F)) (confidence : F)
  : result (gmap string (BacktestReport F)) :=
  let total_days := len returns in
  label <-- label_of confidence ;;
  let var_key := "var_" +:+ label +:+ "_hist" in
  match var_metrics !! var_key with
  | None => Ok results
  | Some entry =>
      var_threshold <--
        match entry with
        | VarEntry r => Ok (var_return r)
        | EsEntry _ => Raise KeyError
        end ;;
      let breaches := count_breaches returns var_threshold in
      let '(traffic_light, tl_message) :=
        basel_traffic_light breaches total_days confidence in
      kupiec <-- kupiec_test breaches total_days confidence ;;
      breach_rate <-- int_truediv breaches total_days ;;
      Ok (<[label := {| breaches := breaches;
                        total_days := total_days;
                        breach_rate := breach_rate;
                        expected_rate := (of_int 1 - confidence)%A;
                        traffic_light := traffic_light;
                        traffic_message := tl_message;
                        kupiec_result := kupiec |}]> results)
  end.

Definition backtest_results (returns : list F)
    (var_metrics : gmap string (metric F)) (position_value : F)
  : result (option (gmap string (BacktestReport F))) :=
  if (length returns <? 30)%nat then Ok None
  else
    results <-- for_each (backtest_step returns var_metrics) ∅
                  [lit 0.95; lit 0.99] ;;
    Ok (Some results).
End BacktestEngine.

(* ===================================================================== *)
(** * StressTestEngine                                                    *)
(* ===================================================================== *)

(** A scenario dict: ['equity_correlation'] and ['vol_multiplier'] are
    keys that a scenario may lack. *)
Record Scenario (F : Type) : Type := {
  name : string;
  nifty_shock : F;
  equity_correlation : option F;
  vol_multiplier : option F
}.
Arguments name {F} _.
Arguments nifty_shock {F} _.
Arguments equity_correlation {F} _.
Arguments vol_multiplier {F} _.

Record AssetLoss (F : Type) : Type := {
  position : F;
  loss : F;
  loss_pct : F
}.
Arguments position {F} _.
Arguments loss {F} _.
Arguments loss_pct {F} _.

Record StressResult (F : Type) : Type := {
  scenario_name : string;
  total_loss : F;
  asset_breakdown : gmap string (AssetLoss F)
}.
Arguments scenario_name {F} _.
Arguments total_loss {F} _.
Arguments asset_breakdown {F} _.

(** [pat in s] on strings: [pat] occurs somewhere in [s]. *)
Fixpoint str_in (pat s : string) : bool :=
  String.prefix pat s ||
  match s with
  | EmptyString => false
  | String _ s' => str_in pat s'
  end.

Section StressTestEngine.
Context {F : Type} `{Arith F}.

(** [self.scenarios], built by [__init__]. *)
Definition scenarios : gmap string (Scenario F) :=
  <["market_crash" :=
      {| name := "Market Crash (-3σ)";
         nifty_shock := lit (-0.15);
         equity_correlation := Some (lit 0.9);
         vol_multiplier := None |}]>
  (<["covid_style" :=
      {| name := "COVID-style Crash";
         nifty_shock := lit (-0.38);
         equity_correlation := Some (lit 0.95);
         vol_multiplier := None |}]>
  (<["volatility_spike" :=
      {| name := "Volatility Spike";
         nifty_shock := lit (-0.10);
         equity_correlation := None;
         vol_multiplier := Some (lit 2.5) |}]>
  (<["2008_crisis" :=
      {| name := "2008-style Crisis";
         nifty_shock := lit (-0.52);
         equity_correlation := Some (lit 0.98);
         vol_multiplier := None |}]> ∅))).

(** [a / b] on Python numbers. *)
Definition py_truediv (a b : F) : result F :=
  if (b =? of_int 0)%A then Raise ZeroDivisionError else Ok (a / b)%A.

(** The loss of one instrument under a scenario. *)
Definition instrument_loss (scenario : Scenario F) (symbol : string) (position : F)
  : F :=
  if str_in "^NSEI" symbol then
    (position * fabs (nifty_shock scenario))%A
  else
    let shock :=
      match equity_correlation scenario with
      | Some c => (nifty_shock scenario * c)%A
      | None => (nifty_shock scenario * lit 0.8)%A
      end in
    (position * fabs shock)%A.

(** The entry [apply_scenario] stores for an instrument. *)
Definition breakdown_entry (scenario : Scenario F) (item : string * F)
  : AssetLoss F :=
  {| position := item.2;
     loss := instrument_loss scenario item.1 item.2;
     loss_pct := (instrument_loss scenario item.1 item.2 / item.2 * of_int 100)%A |}.

(** One turn of the loop of [apply_scenario] over
    [position_values.items()]; the state is [(results, total_loss)]. *)
Definition scenario_step (scenario : Scenario F)
    (st : gmap string (AssetLoss F) * F) (item : string * F)
  : result (gmap string (AssetLoss F) * F) :=
  let '(results, total_loss) := st in
  let '(symbol, position) := item in
  let loss := instrument_loss scenario symbol position in
  ratio <-- py_truediv loss position ;;
  Ok (<[symbol := {| position := position;
                     loss := loss;
                     loss_pct := (ratio * of_int 100)%A |}]> results,
      (total_loss + loss)%A).

(** [position_values] is the dict in insertion order: a list of items
    with pairwise distinct keys.  [returns_data] is never read. *)
Definition apply_scenario (scenario_name : string)
    (position_values : list (string * F))
  : result (option (StressResult F)) :=
  match scenarios !! scenario_name with
  | None => Ok None
  | Some scenario =>
      st <-- for_each (scenario_step scenario) (∅, of_int 0) position_values ;;
      Ok (Some {| scenario_name := name scenario;
                  total_loss := st.2;
                  asset_breakdown := st.1 |})
  end.
End StressTestEngine.

(* ===================================================================== *)
(** * AlertMonitor                                                        *)
(* ===================================================================== *)

(** [timestamp] is the reading of [datetime.now()], handed to
    [check_breach] by the caller of the model. *)
Record Alert (F : Type) : Type := {
  level : string;
  severity : string;
  symbol : string;
  alert_return : F;
  threshold : F;
  excess : F;
  timestamp : Z
}.
Arguments level {F} _.
Arguments severity {F} _.
Arguments symbol {F} _.
Arguments alert_return {F} _.
Arguments threshold {F} _.
Arguments excess {F} _.
Arguments timestamp {F} _.

(** The object's state: the deque with its [maxlen], and the two entries
    of the [breach_count] dict. *)
Record Monitor (F : Type) : Type := {
  alerts : list (Alert F);
  maxlen : nat;
  breach_count_95 : Z;
  breach_count_99 : Z
}.
Arguments alerts {F} _.
Arguments maxlen {F} _.
Arguments breach_count_95 {F} _.
Arguments breach_count_99 {F} _.

Record AlertSummary (F : Type) : Type := {
  total_alerts : Z;
  n95_breaches : Z;
  n99_breaches : Z;
  recent : list (Alert F)
}.
Arguments total_alerts {F} _.
Arguments n95_breaches {F} _.
Arguments n99_breaches {F} _.
Arguments recent {F} _.

(** [d.append(x)] on a [deque(maxlen=n)]: the item goes to the right end
    and, when the deque is then longer than [n], the leftmost item is
    discarded. *)
Definition deque_append {A : Type} (n : nat) (d : list A) (x : A) : list A :=
  let d' := d ++ [x] in
  if (n <? length d')%nat then drop 1 d' else d'.

(** The last [n] entries of [l]. *)
Definition lastn {A : Type} (n : nat) (l : list A) : list A :=
  drop (length l - n) l.

(** [l[start:]] with Python's clipping and negative start. *)
Definition py_slice_from {A : Type} (l : list A) (start : Z) : list A :=
  let s := if (start <? 0)%Z then Z.max 0 (start + len l) else start in
  drop (Z.to_nat s) l.

Section AlertMonitor.
Context {F : Type} `{Arith F}.

(** [AlertMonitor(max_alerts)] *)
Definition init (max_alerts : nat) : Monitor F :=
  {| alerts := []; maxlen := max_alerts;
     breach_count_95 := 0; breach_count_99 := 0 |}.

(** Returns the new state and the list [breaches] handed back. *)
Definition check_breach (self : Monitor F) (current_return var_95 var_99 : F)
    (symbol : string) (now : Z) : Monitor F * list (Alert F) :=
  let abs_return := fabs (current_return * of_int 100)%A in
  let '(self, breaches) :=
    if (abs_return >? var_99)%A then
      ({| alerts := alerts self; maxlen := maxlen self;
          breach_count_95 := breach_count_95 self;
          breach_count_99 := breach_count_99 self + 1 |},
       [ {| level := "99%";
            severity := "CRITICAL";
            symbol := symbol;
            alert_return := (current_return * of_int 100)%A;
            threshold := var_99;
            excess := (abs_return - var_99)%A;
            timestamp := now |} ])
    else if (abs_return >? var_95)%A then
      ({| alerts := alerts self; maxlen := maxlen self;
          breach_count_95 := breach_count_95 self + 1;
          breach_count_99 := breach_count_99 self |},
       [ {| level := "95%";
            severity := "WARNING";
            symbol := symbol;
            alert_return := (current_return * of_int 100)%A;
            threshold := var_95;
            excess := (abs_return - var_95)%A;
            timestamp := now |} ])
    else (self, []) in
  ({| alerts := fold_left (deque_append (maxlen self)) breaches (alerts self);
      maxlen := maxlen self;
      breach_count_95 := breach_count_95 self;
      breach_count_99 := breach_count_99 self |},
   breaches).

Definition get_recent_alerts (self : Monitor F) (n : Z) : list (Alert F) :=
  py_slice_from (alerts self) (- n).

Definition get_alert_summary (self : Monitor F) : AlertSummary F :=
  {| total_alerts := len (alerts self);
     n95_breaches := breach_count_95 self;
     n99_breaches := breach_count_99 self;
     recent := get_recent_alerts self 5 |}.

Definition reset_counts (self : Monitor F) : Monitor F :=
  {| alerts := []; maxlen := maxlen self;
     breach_count_95 := 0; breach_count_99 := 0 |}.

(** The calls a client can make on a monitor, and their effect on its
    state. *)
Inductive call : Type :=
| CheckBreach (current_return var_95 var_99 : F) (symbol : string) (now : Z)
| GetRecentAlerts (n : Z)
| GetAlertSummary
| ResetCounts.

Definition step (self : Monitor F) (c : call) : Monitor F :=
  match c with
  | CheckBreach r v95 v99 sym now => (check_breach self r v95 v99 sym now).1
  | GetRecentAlerts _ => self
  | GetAlertSummary => self
  | ResetCounts => reset_counts self
  end.

Definition run (self : Monitor F) (cs : list call) : Monitor F :=
  fold_left step cs self.

(** The alerts a call hands back, and all the alerts a sequence of calls
    emits, oldest first. *)
Definition returned (self : Monitor F) (c : call) : list (Alert F) :=
match c with
| CheckBreach r v95 v99 sym now => (check_breach self r v95 v99 sym now).2
| _ => []
end.

Fixpoint emitted (self : Monitor F) (cs : list call) : list (Alert F) :=
match cs with
| [] => []
| c :: cs' => returned self c ++ emitted (step self c) cs'
end.

Definition is_check (c : call) : bool :=
match c with
| CheckBreach _ _ _ _ _ => true
| _ => false
end.

Definition is_reset (c : call) : bool :=
match c with
| ResetCounts => true
| _ => false
end.

(** The number of alerts of a level in a list. *)
Definition count_level (lv : string) (l : list (Alert F)) : Z :=
len (List.filter (fun a => String.eqb (level a) lv) l).
End AlertMonitor.

(* ===================================================================== *)
(** * AlertMonitor: what a stored alert records                           *)
(* ===================================================================== *)

(** An alert as [check_breach] builds it: the level goes with its
    severity, the magnitude of the recorded return is above the recorded
    threshold, and the excess is their difference. *)
Definition genuine_breach {F : Type} `{Arith F} (a : Alert F) : Prop :=
  ((level a = "99%" /\ severity a = "CRITICAL") \/
   (level a = "95%" /\ severity a = "WARNING")) /\
  (fabs (alert_return a) >? threshold a)%A = true /\
  excess a = (fabs (alert_return a) - threshold a)%A.

(* ===================================================================== *)
(** * MarketDataFeed                                                      *)
(* ===================================================================== *)

(** A [datetime.time]; times compare as the tuples
    [(hour, minute, second, microsecond)]. *)
Record pytime : Set := {
  hour : Z;
  minute : Z;
  second : Z;
  microsecond : Z
}.

Definition time_ltb (a b : pytime) : bool :=
  (hour a <? hour b)%Z ||
  ((hour a =? hour b)%Z &&
   ((minute a <? minute b)%Z ||
    ((minute a =? minute b)%Z &&
     ((second a <? second b)%Z ||
      ((second a =? second b)%Z && (microsecond a <? microsecond b)%Z))))).

Definition time_leb (a b : pytime) : bool := negb (time_ltb b a).

(** The time of day in microseconds since midnight. *)
Definition microseconds_of_day (t : pytime) : Z :=
  (((hour t * 60 + minute t) * 60 + second t) * 1000000 + microsecond t)%Z.

(** A reading of [datetime.now(self.ist)]: its [weekday()] (Monday is 0)
    and its [time()]. *)
Record clock_reading : Set := {
  weekday : Z;
  time_of_day : pytime
}.

(** [time(9, 15)] and [time(15, 30)] *)
Definition market_open : pytime :=
  {| hour := 9; minute := 15; second := 0; microsecond := 0 |}.
Definition market_close : pytime :=
  {| hour := 15; minute := 30; second := 0; microsecond := 0 |}.

Definition is_market_open (now : clock_reading) : bool :=
  if (5 <=? weekday now)%Z then false
  else if time_leb market_open (time_of_day now)
          && time_leb (time_of_day now) market_close then true
  else false.

(** A field of [strftime] written with two digits. *)
Definition two_digits (n : Z) : string :=
  if (n <? 10)%Z then "0" +:+ pretty n else pretty n.

(** [now.strftime('%H:%M:%S IST')] *)
Definition strftime_hms (t : pytime) : string :=
  two_digits (hour t) +:+ ":" +:+ two_digits (minute t) +:+ ":"
  +:+ two_digits (second t) +:+ " IST".

Record MarketStatus : Set := {
  status : string;
  message : string;
  time_text : string;
  mode : string
}.

(** [get_market_status] reads the clock itself ([now]) and then calls
    [is_market_open], which reads it again ([now_inside]). *)
Definition get_market_status (now now_inside : clock_reading) : MarketStatus :=
  let is_open := is_market_open now_inside in
  if is_open then
    {| status := "OPEN";
       message := "Market is currently trading";
       time_text := strftime_hms (time_of_day now);
       mode := "LIVE" |}
  else
    let reason :=
      if (5 <=? weekday now)%Z then "Weekend"
      else if time_ltb (time_of_day now) market_open then "Pre-market"
      else "After-hours" in
    {| status := "CLOSED";
       message := "Market closed (" +:+ reason +:+ ")";
       time_text := strftime_hms (time_of_day now);
       mode := "HISTORICAL" |}.

(** A row of a price frame: its index and the five columns the feed
    copies. *)
Record Row : Set := {
  stamp : Z;
  close : float;
  open_price : float;
  high : float;
  low : float;
  volume : float
}.

(** The outcome of a call to the data provider, or of a block guarded by
    [try]: a value, or some exception (an [Exception]). *)
Inductive remote (A : Type) : Type :=
| Fetched (a : A)
| Failed.
Arguments Fetched {A} a.
Arguments Failed {A}.

(** [fetch_data]: [history] is the outcome of
    [yf.Ticker(symbol).history(period, interval)], [open_now] the answer
    of [is_market_open()], and [live] the outcome of the inner [try] block
    up to the last row of the one-minute frame. *)
Definition fetch_data (history : remote (list Row)) (open_now : bool)
    (live : remote (list Row)) : option (list Row) :=
  match history with
  | Failed => None
  | Fetched df =>
      if (length df =? 0)%nat then None
      else if open_now then
        match live with
        | Fetched live_df =>
            match last live_df with
            | Some new_row => Some (df ++ [new_row])
            | None => Some df
            end
        | Failed => Some df
        end
      else Some df
  end.

(** The feed's state. *)
Record Feed : Type := {
  current_data : gmap string (list Row);
  last_update : option Z
}.

(** The keys of [self.assets], in order. *)
Definition asset_symbols : list string :=
  ["^NSEI"; "RELIANCE.NS"; "TCS.NS"; "HDFCBANK.NS"; "INFY.NS"].

(** [get_all_assets_data]: [fetch symbol] is what [fetch_data(symbol)]
    returns during this call, [now] the clock at its end. *)
Definition get_all_assets_data (fetch : string -> option (list Row)) (now : Z)
    (self : Feed) : Feed :=
  {| current_data :=
       fold_left (fun data symbol =>
                    match fetch symbol with
                    | Some df => <[symbol := df]> data
                    | None => data
                    end)
                 asset_symbols (current_data self);
     last_update := Some now |}.

Record PriceInfo : Set := {
  price : float;
  price_time : Z;
  change_pct : float
}.

(** The entry [get_latest_prices] builds from one frame: nothing for an
    empty frame, else the last close, its index, and the change from the
    close before. *)
Definition latest_of (df : list Row) : result (option PriceInfo) :=
  if (length df =? 0)%nat then Ok None
  else
    last_row <-- py_index df (-1) ;;
    previous <-- py_index df (-2) ;;
    Ok (Some {| price := close last_row;
                price_time := stamp last_row;
                change_pct :=
                  PrimFloat.mul
                    (PrimFloat.sub (PrimFloat.div (close last_row) (close previous)) 1)
                    100 |}).

(** What the entry says, for a frame of two rows or more: the close and
    index of the last row, and the change from the row before it. *)
Definition info_of (df : list Row) : option PriceInfo :=
  match last df, last (take (length df - 1) df) with
  | Some last_row, Some previous =>
      Some {| price := close last_row;
              price_time := stamp last_row;
              change_pct :=
                PrimFloat.mul
                  (PrimFloat.sub (PrimFloat.div (close last_row) (close previous)) 1)
                  100 |}
  | _, _ => None
  end.

Definition latest_prices_step (prices : gmap string PriceInfo)
    (item : string * list Row) : result (gmap string PriceInfo) :=
  info <-- latest_of item.2 ;;
  Ok (match info with
      | Some i => <[item.1 := i]> prices
      | None => prices
      end).

(** [get_latest_prices]: the frames are visited in some order of the
    keys; an entry depends on its own frame only. *)
Definition get_latest_prices (fetch : string -> option (list Row)) (now : Z)
    (self : Feed) : Feed * result (gmap string PriceInfo) :=
  let self :=
    if decide (current_data self = ∅) then get_all_assets_data fetch now self
    else self in
  (self, for_each latest_prices_step ∅ (map_to_list (current_data self))).

(* ===================================================================== *)
(** * Library functions at the arguments of the examples                  *)
(* ===================================================================== *)

(** The engines call the C library and SciPy ([log], [pow], the normal
    quantile, the chi-square distribution function).  The engines above
    take these functions as parameters and the theorems hold for every
    choice of them (under the hypotheses they state).  To run an engine on
    an example, the functions below give the values at the arguments the
    examples reach. *)

(** [log] where IEEE 754 fixes its value: [log(NaN) = NaN],
    [log(x) = NaN] for [x < 0], [log(0) = -inf], [log(1) = 0],
    [log(+inf) = +inf].  (No other argument is reached; NaN there.) *)
Definition log_special (x : float) : float :=
  if PrimFloat.is_nan x then PrimFloat.nan
  else if PrimFloat.ltb x 0 then PrimFloat.nan
  else if PrimFloat.eqb x 0 then PrimFloat.neg_infinity
  else if PrimFloat.eqb x 1 then 0%float
  else if PrimFloat.eqb x PrimFloat.infinity then PrimFloat.infinity
  else PrimFloat.nan.

(** [x ** n] by repeated multiplication, with CPython's two errors. *)
Fixpoint pow_nat (x : float) (n : nat) : float :=
  match n with
  | O => 1%float
  | S n' => PrimFloat.mul x (pow_nat x n')
  end.

Definition pow_repeated (x : float) (n : Z) : result float :=
  if (n <? 0)%Z && PrimFloat.eqb x 0 then Raise ZeroDivisionError
  else
    let y := if (n <? 0)%Z then PrimFloat.div 1 (pow_nat x (Z.to_nat (- n)))
             else pow_nat x (Z.to_nat n) in
    if PrimFloat.is_infinity y && negb (PrimFloat.is_infinity x)
    then Raise OverflowError else Ok y.

(** [chi2.cdf(0, df=1) = 0]. *)
Definition chi2_cdf_at_0 (x : float) : float :=
  if PrimFloat.eqb x 0 then 0%float else PrimFloat.nan.

(** [norm.ppf] at [1 - 0.95] and [1 - 0.99]. *)
Definition norm_ppf_table (p : float) : float :=
  if PrimFloat.eqb p (PrimFloat.sub 1 0.95) then (-1.6448536269514729)%float
  else if PrimFloat.eqb p (PrimFloat.sub 1 0.99) then (-2.3263478740408408)%float
  else PrimFloat.nan.

(** The sample standard deviation ([ddof = 1], as pandas computes it). *)
Definition sample_std (l : list float) : float :=
  let m := np_mean l in
  let sq := map (fun x => PrimFloat.mul (PrimFloat.sub x m) (PrimFloat.sub x m)) l in
  PrimFloat.sqrt (PrimFloat.div (np_sum sq) (Z2F (len l - 1))).

(* ===================================================================== *)
(** * Facts about the Python sequence operations                          *)
(* ===================================================================== *)

Lemma py_index_in_range {A : Type} (l : list A) (k : Z) (x : A) :
  (0 <= k)%Z -> l !! Z.to_nat k = Some x -> py_index l k = Ok x.
Proof.
  intros Hk Hx. unfold py_index.
  destruct (Z.ltb_spec k 0) as [Hneg|_]; [lia|].
  destruct (Z.ltb_spec k 0) as [Hneg|_]; [lia|].
  now rewrite Hx.
Qed.

Lemma py_index_lookup {A : Type} (l : list A) (k : Z) :
  (0 <= k < len l)%Z -> exists x, l !! Z.to_nat k = Some x /\ py_index l k = Ok x.
Proof.
  intros [Hk Hlt]. unfold len in Hlt.
  destruct (lookup_lt_is_Some_2 l (Z.to_nat k)) as [x Hx]; [lia|].
  exists x. split; [exact Hx|]. now apply py_index_in_range.
Qed.

Lemma py_slice_to_nonneg {A : Type} (l : list A) (stop : Z) :
  (0 <= stop)%Z -> py_slice_to l stop = take (Z.to_nat stop) l.
Proof.
  intros Hs. unfold py_slice_to.
  destruct (Z.ltb_spec stop 0) as [Hneg|_]; [lia|reflexivity].
Qed.

(* ===================================================================== *)
(** * np.sort: a permutation, ascending for numpy's order                 *)
(* ===================================================================== *)

Section SortFacts.
Context {F : Type} `{Arith F}.

Lemma np_insert_perm (x : F) (l : list F) : Permutation (np_insert x l) (x :: l).
Proof.
  induction l as [|y l IH]; simpl; [reflexivity|].
  destruct (np_lt x y); [reflexivity|].
  rewrite IH. apply perm_swap.
Qed.

Lemma np_sort_perm (l : list F) : Permutation (np_sort l) l.
Proof.
  induction l as [|x l IH]; simpl; [reflexivity|].
  rewrite np_insert_perm. now constructor.
Qed.

Lemma np_sort_length (l : list F) : length (np_sort l) = length l.
Proof. apply Permutation_length, np_sort_perm. Qed.

(** What the order must satisfy for the insertion to keep an array
    sorted; both instances satisfy it. *)
Hypothesis np_lt_asym : forall a b, np_lt a b = true -> np_lt b a = false.
Hypothesis np_le_trans : forall a b c, np_le a b -> np_le b c -> np_le a c.

Lemma np_insert_sorted (x : F) (l : list F) :
  StronglySorted np_le l -> StronglySorted np_le (np_insert x l).
Proof.
  induction 1 as [|y l Hs IH Hy]; simpl.
  - repeat constructor.
  - destruct (np_lt x y) eqn:E.
    + constructor; [now constructor|].
      constructor; [now apply np_lt_asym|].
      eapply Forall_impl; [exact Hy|].
      intros z Hz. eapply np_le_trans; [|exact Hz]. now apply np_lt_asym.
    + constructor; [exact IH|].
      eapply Permutation_Forall; [symmetry; apply np_insert_perm|].
      constructor; [exact E|exact Hy].
Qed.

Lemma np_sort_sorted (l : list F) : StronglySorted np_le (np_sort l).
Proof.
  induction l as [|x l IH]; simpl; [constructor|].
  now apply np_insert_sorted.
Qed.

End SortFacts.

Lemma length_ltb_10 {A : Type} (l : list A) :
  (10 <= length l)%nat -> (length l <? 10)%nat = false.
Proof. intros Hl. apply Nat.ltb_ge. exact Hl. Qed.

(* ===================================================================== *)
(** * binary64: NaN, the sorting order, magnitudes                        *)
(* ===================================================================== *)

Module Binary64.
Lemma is_nan_Prim2SF (x : float) : PrimFloat.is_nan x = sf_is_nan (Prim2SF x).
Proof.
  unfold Prim2SF. destruct (PrimFloat.is_nan x); [reflexivity|].
  destruct (is_zero x); [reflexivity|].
  destruct (is_infinity x); [reflexivity|].
  destruct (Z.frexp x) as [r e].
  destruct (shr_fexp _ _ _ _ _) as [shr e'].
  destruct (shr_m shr); reflexivity.
Qed.

(** A quotient by NaN is NaN. *)
Lemma div_nan (x : float) : PrimFloat.is_nan (x / nan) = true.
Proof.
  rewrite is_nan_Prim2SF, div_spec. change (Prim2SF nan) with S754_nan.
  destruct (Prim2SF x); reflexivity.
Qed.

(** The magnitude of a product is the product of the magnitudes: the
    sign plays no part in the rounding. *)
Lemma abs_mul (x y : float) : abs (x * y) = (abs x * abs y)%float.
Proof.
  apply Prim2SF_inj. rewrite abs_spec, !mul_spec, !abs_spec.
  destruct (Prim2SF x) as [sx|sx| |sx mx ex], (Prim2SF y) as [sy|sy| |sy my ey];
    simpl; try reflexivity.
  unfold SF64mul, SFmul, binary_round_aux.
  destruct (shr_fexp _ _ _ _ _) as [a b].
  destruct (shr_fexp _ _ _ _ _) as [a' b'].
  destruct (shr_m a'); try reflexivity.
  destruct (_ <=? _)%Z; reflexivity.
Qed.

Lemma SFltb_key (a b : spec_float) :
  SFltb a b || (sf_is_nan b && negb (sf_is_nan a)) = true
  <-> lex_lt (sf_key a) (sf_key b).
Proof.
  unfold SFltb, lex_lt.
  destruct a as [sa|sa| |sa ma ea], b as [sb|sb| |sb mb eb];
    try destruct sa; try destruct sb; simpl;
    try (split; [discriminate | lia]);
    try (split; [lia | reflexivity]).
  all: destruct (Z.compare_spec ea eb);
    try (split; [lia | reflexivity]); try (split; [discriminate | lia]).
  all: rewrite Pos.compare_cont_spec;
    destruct (Pos.compare_spec ma mb); simpl;
    try (split; [lia | reflexivity]); try (split; [discriminate | lia]).
Qed.

Lemma np_lt_key (x y : float) :
  np_lt x y = true <-> lex_lt (sf_key (Prim2SF x)) (sf_key (Prim2SF y)).
Proof.
  unfold np_lt; simpl. rewrite ltb_spec, !is_nan_Prim2SF. apply SFltb_key.
Qed.

Lemma lex_lt_asym (a b : Z * Z * Z) : lex_lt a b -> ~ lex_lt b a.
Proof. destruct a as [[? ?] ?], b as [[? ?] ?]. unfold lex_lt. lia. Qed.

Lemma lex_ge_trans (a b c : Z * Z * Z) :
  ~ lex_lt b a -> ~ lex_lt c b -> ~ lex_lt c a.
Proof.
  destruct a as [[? ?] ?], b as [[? ?] ?], c as [[? ?] ?]. unfold lex_lt. lia.
Qed.

(** [np.sort] returns its argument in ascending order. *)
Lemma np_sort_sorted_binary64 (l : list float) : StronglySorted np_le (np_sort l).
Proof.
  apply np_sort_sorted.
  - intros a b Hab. apply not_true_is_false. rewrite np_lt_key in *.
    now apply lex_lt_asym.
  - intros a b c. unfold np_le. rewrite <- !not_true_iff_false, !np_lt_key.
    apply lex_ge_trans.
Qed.

(** The source's constants, as the interpreter reads them. *)
Lemma literals :
  lit 0.95 = 0.95%float /\ lit 0.99 = 0.99%float /\ lit 3.841 = 3.841%float /\
  lit 0.8 = 0.8%float /\ lit 0.9 = 0.9%float /\ lit (-0.15) = (-0.15)%float /\
  of_int 0 = 0%float /\ of_int 1 = 1%float /\ of_int 100 = 100%float /\
  of_int (-2) = (-2)%float.
Proof. repeat split; vm_compute; reflexivity. Qed.

(** *** Division by one, and the mean of a single number *)

Section Rounding.
Local Open Scope Z_scope.

Lemma div_eucl_shiftl_52 (a : positive) :
  IntDef.Z.div_eucl (IntDef.Z.shiftl (Z.pos a) 52) 4503599627370496
  = (Z.pos a, 0%Z).
Proof.
  change (Z.div_eucl (Z.shiftl (Z.pos a) 52) 4503599627370496 = (Z.pos a, 0%Z)).
  rewrite Z.shiftl_mul_pow2 by lia.
  change (2 ^ 52)%Z with 4503599627370496%Z.
  pose proof (Z.div_mul (Z.pos a) 4503599627370496 ltac:(lia)) as H1.
  pose proof (Z.mod_mul (Z.pos a) 4503599627370496 ltac:(lia)) as H2.
  unfold Z.div, Z.modulo in H1, H2.
  destruct (Z.div_eucl _ _) as [q r]. now subst.
Qed.

Lemma div_eucl_shiftl_53 (a : positive) :
  IntDef.Z.div_eucl (IntDef.Z.shiftl (Z.pos a) 53) 4503599627370496
  = (Z.pos a~0, 0%Z).
Proof.
  change (Z.div_eucl (Z.shiftl (Z.pos a) 53) 4503599627370496 = (Z.pos a~0, 0%Z)).
  rewrite Z.shiftl_mul_pow2 by lia.
  replace (Z.pos a * 2 ^ 53)%Z with (Z.pos a~0 * 4503599627370496)%Z by lia.
  pose proof (Z.div_mul (Z.pos a~0) 4503599627370496 ltac:(lia)) as H1.
  pose proof (Z.mod_mul (Z.pos a~0) 4503599627370496 ltac:(lia)) as H2.
  unfold Z.div, Z.modulo in H1, H2.
  destruct (Z.div_eucl _ _) as [q r]. now subst.
Qed.

(** Rounding a number that is a float already returns it ... *)
Lemma binary_round_aux_canonical (s : bool) (m : positive) (e : Z) :
  bounded prec emax m e = true ->
  binary_round_aux prec emax s (Z.pos m) e loc_Exact = S754_finite s m e.
Proof.
  unfold bounded, canonical_mantissa.
  intros Hb. apply andb_true_iff in Hb as [Hc He]. apply Z.eqb_eq in Hc.
  unfold binary_round_aux, shr_fexp.
  change (Zdigits2 (Z.pos m)) with (Z.pos (digits2_pos m)).
  rewrite Hc, Z.sub_diag.
  cbv [shr shr_record_of_loc shr_m loc_of_shr_record round_nearest_even].
  change (Zdigits2 (Z.pos m)) with (Z.pos (digits2_pos m)).
  rewrite Hc, Z.sub_diag. cbv iota beta. now rewrite He.
Qed.

(** ... and so does rounding twice that number, written with the exponent
    below. *)
Lemma binary_round_aux_double (s : bool) (m : positive) (e : Z) :
  bounded prec emax m e = true -> (-1074 < e)%Z ->
  binary_round_aux prec emax s (Z.pos m~0) (e - 1) loc_Exact = S754_finite s m e.
Proof.
  intros Hb Hmin. pose proof Hb as Hb'. revert Hb'.
  unfold bounded, canonical_mantissa.
  intros Hb'. apply andb_true_iff in Hb' as [Hc He]. apply Z.eqb_eq in Hc.
  unfold binary_round_aux at 1. unfold shr_fexp at 1.
  change (Zdigits2 (Z.pos m~0)) with (Z.pos (Pos.succ (digits2_pos m))).
  assert (Hs : (fexp prec emax (Z.pos (Pos.succ (digits2_pos m)) + (e - 1)) - (e - 1)
                = 1)%Z).
  { revert Hc. unfold fexp, emin. change emax with 1024%Z. change prec with 53%Z.
    change (3 - 1024 - 53)%Z with (-1074)%Z. lia. }
  rewrite Hs.
  cbv [shr shr_record_of_loc SpecFloat.iter_pos shr_1 shr_m loc_of_shr_record
       round_nearest_even].
  replace (e - 1 + 1)%Z with e by lia.
  pose proof (binary_round_aux_canonical s m e Hb) as Hr.
  unfold binary_round_aux in Hr. unfold shr_fexp at 1 in Hr.
  change (Zdigits2 (Z.pos m)) with (Z.pos (digits2_pos m)) in Hr.
  rewrite Hc, Z.sub_diag in Hr.
  cbv [shr shr_record_of_loc shr_m loc_of_shr_record round_nearest_even] in Hr.
  exact Hr.
Qed.

(** The quotient of a finite float by 1.0 (mantissa 2^52, exponent -52) is
    that float: the division is exact and nothing is left to round. *)
Lemma SFdiv_one (s : bool) (m : positive) (e : Z) :
  bounded prec emax m e = true ->
  SFdiv prec emax (S754_finite s m e) (S754_finite false 4503599627370496 (-52))
  = S754_finite s m e.
Proof.
  intros Hb. pose proof Hb as Hb'. revert Hb'.
  unfold bounded, canonical_mantissa, fexp, emin.
  change emax with 1024%Z. change prec with 53%Z.
  change (3 - 1024 - 53)%Z with (-1074)%Z.
  intros Hb'. apply andb_true_iff in Hb' as [Hc He].
  apply Z.eqb_eq in Hc.
  set (d := Z.pos (digits2_pos m)) in *.
  assert (Hd : (0 < d)%Z) by (unfold d; lia).
  unfold SFdiv, SFdiv_core_binary, fexp, emin.
  change (Zdigits2 (Z.pos m)) with d.
  change (Zdigits2 4503599627370496) with 53%Z.
  change (3 - 1024 - 53)%Z with (-1074)%Z.
  rewrite xorb_false_r.
  destruct (Z.eq_dec e (-1074)) as [->|Hne].
  - assert (d <= 53)%Z by lia.
    replace (IntDef.Z.min (IntDef.Z.max (d + -1074 - (53 + -52) - 53) (-1074))
               (-1074 - -52))
      with (-1074)%Z by lia.
    change (-1074 - -52 - -1074)%Z with 52%Z. cbv iota.
    rewrite div_eucl_shiftl_52.
    change (new_location 4503599627370496 0) with loc_Exact.
    apply (binary_round_aux_canonical s m (-1074) Hb).
  - assert (d = 53)%Z by lia.
    replace (IntDef.Z.min (IntDef.Z.max (d + e - (53 + -52) - 53) (-1074)) (e - -52))
      with (e - 1)%Z by lia.
    replace (e - -52 - (e - 1))%Z with 53%Z by lia. cbv iota.
    rewrite div_eucl_shiftl_53.
    change (new_location 4503599627370496 0) with loc_Exact.
    apply (binary_round_aux_double s m e Hb). lia.
Qed.

(** Rounding never produces NaN. *)

Lemma shr_1_nonneg (mrs : shr_record) :
  (0 <= shr_m mrs)%Z -> (0 <= shr_m (shr_1 mrs))%Z.
Proof. destruct mrs as [[|[p|p|]|p] r s]; simpl; lia. Qed.

Lemma iter_shr_1_nonneg (p : positive) (mrs : shr_record) :
  (0 <= shr_m mrs)%Z -> (0 <= shr_m (SpecFloat.iter_pos shr_1 p mrs))%Z.
Proof.
  revert mrs. induction p as [p IH|p IH|]; intros mrs Hm; simpl.
  - apply IH, IH, shr_1_nonneg, Hm.
  - apply IH, IH, Hm.
  - apply shr_1_nonneg, Hm.
Qed.

Lemma shr_fexp_nonneg (m e : Z) (l : location) :
  (0 <= m)%Z -> (0 <= shr_m (fst (shr_fexp prec emax m e l)))%Z.
Proof.
  intros Hm. unfold shr_fexp, shr.
  assert (H0 : (0 <= shr_m (shr_record_of_loc m l))%Z).
  { destruct l as [|[| |]]; exact Hm. }
  destruct (_ - e)%Z; simpl; [exact H0| |exact H0].
  now apply iter_shr_1_nonneg.
Qed.

Lemma binary_round_aux_not_nan (s : bool) (m e : Z) (l : location) :
  (0 <= m)%Z -> sf_is_nan (binary_round_aux prec emax s m e l) = false.
Proof.
  intros Hm. unfold binary_round_aux.
  pose proof (shr_fexp_nonneg m e l Hm) as H1.
  destruct (shr_fexp prec emax m e l) as [mrs' e']. simpl in H1.
  assert (H2 : (0 <= round_nearest_even (shr_m mrs') (loc_of_shr_record mrs'))%Z).
  { unfold round_nearest_even.
    destruct (loc_of_shr_record mrs') as [|[| |]]; try exact H1.
    - destruct (Z.even _); lia.
    - lia. }
  pose proof (shr_fexp_nonneg _ e' loc_Exact H2) as H3.
  destruct (shr_fexp prec emax _ e' loc_Exact) as [mrs'' e'']. simpl in H3.
  destruct (shr_m mrs'') as [|q|q]; [reflexivity| |lia].
  destruct (_ <=? _)%Z; reflexivity.
Qed.
End Rounding.

(** Up to the sign of a zero, [x / 1.0] is [x]. *)
Lemma abs_div_one (x : float) : abs (x / 1) = abs x.
Proof.
  apply Prim2SF_inj. rewrite !abs_spec, div_spec.
  change (Prim2SF 1) with (S754_finite false 4503599627370496 (-52)).
  pose proof (Prim2SF_valid x) as Hv.
  destruct (Prim2SF x) as [s|s| |s m e]; try reflexivity.
  unfold SF64div. now rewrite (SFdiv_one s m e Hv).
Qed.

(** Up to the sign of a zero, [0.0 + x] is [x]. *)
Lemma abs_zero_add (x : float) : abs (0 + x) = abs x.
Proof.
  apply Prim2SF_inj. rewrite !abs_spec, add_spec.
  change (Prim2SF 0) with (S754_zero false).
  destruct (Prim2SF x) as [[|]|[|]| |s m e]; reflexivity.
Qed.

(** The mean of a one-element array is that element, up to the sign of a
    zero: the sum is [0.0 + x] and the count is 1. *)
Lemma abs_mean_single (x : float) : abs (np_mean [x]) = abs x.
Proof.
  change (np_mean [x]) with ((0 + x) / 1)%float.
  rewrite abs_div_one. apply abs_zero_add.
Qed.

(** A magnitude in percent is a number whenever the return is. *)
Lemma abs_times_100_not_nan (x : float) :
  PrimFloat.is_nan x = false -> PrimFloat.is_nan (abs x * 100) = false.
Proof.
  rewrite !is_nan_Prim2SF, mul_spec, abs_spec.
  change (Prim2SF 100) with (S754_finite false 7036874417766400 (-46)).
  destruct (Prim2SF x) as [s|s| |s m e]; try reflexivity; [discriminate|].
  intros _. unfold SF64mul, SFmul, SFabs.
  apply binary_round_aux_not_nan. lia.
Qed.

(** A number is not above itself. *)
Lemma leb_refl (x : float) : PrimFloat.is_nan x = false -> PrimFloat.leb x x = true.
Proof.
  rewrite is_nan_Prim2SF, leb_spec. unfold SFleb.
  destruct (Prim2SF x) as [s|[|]| |[|] m e]; simpl; try reflexivity;
    try discriminate; intros _.
  all: rewrite Z.compare_refl, Pos.compare_cont_refl; reflexivity.
Qed.

Lemma ltb_irrefl (x : float) : PrimFloat.ltb x x = false.
Proof.
  rewrite ltb_spec. unfold SFltb.
  destruct (Prim2SF x) as [s|[|]| |[|] m e]; simpl; try reflexivity.
  all: rewrite Z.compare_refl, Pos.compare_cont_refl; reflexivity.
Qed.
End Binary64.

(* ===================================================================== *)
(** * VaRCalculator: Expected Shortfall against historical VaR            *)
(* ===================================================================== *)

(** NaN sorts last: when the first element of a sorted array is NaN, all
    of them are. *)
Lemma np_sort_head_nan (returns rest : list float) (x : float) :
  np_sort returns = x :: rest ->
  PrimFloat.is_nan x = true ->
  Forall (fun y => PrimFloat.is_nan y = true) returns.
Proof.
  intros Hs Hx.
  pose proof (Binary64.np_sort_sorted_binary64 returns) as Hsorted.
  pose proof (np_sort_perm returns) as Hperm.
  rewrite Hs in Hsorted, Hperm.
  apply StronglySorted_inv in Hsorted as [_ Hall].
  rewrite <- Hperm. constructor; [exact Hx|].
  eapply Forall_impl; [exact Hall|].
  intros y Hy. unfold np_le, np_lt in Hy. simpl in Hy. rewrite Hx in Hy.
  apply orb_false_elim in Hy as [_ Hy]. simpl in Hy.
  now apply negb_false_iff in Hy.
Qed.

(** The cut-off index is 0 at the two confidence levels the engine uses,
    while the series is short: below 20 returns at 95%, below 100 returns
    at 99%. *)
Lemma var_index_of_short_series (returns : list float) :
  ((10 <= length returns < 20)%nat ->
   var_index_of (lit 0.95) (np_sort returns) = Ok 0%Z) /\
  ((10 <= length returns < 100)%nat ->
   var_index_of (lit 0.99) (np_sort returns) = Ok 0%Z).
Proof.
  unfold var_index_of, len. rewrite np_sort_length.
  assert (H95 : forallb (fun n => match F2Z ((Z2F 1 - float_lit 0.95)
                                               * Z2F (Z.of_nat n)) with
                                  | Ok 0%Z => true
                                  | _ => false
                                  end) (seq 10 10) = true)
    by (vm_compute; reflexivity).
  assert (H99 : forallb (fun n => match F2Z ((Z2F 1 - float_lit 0.99)
                                               * Z2F (Z.of_nat n)) with
                                  | Ok 0%Z => true
                                  | _ => false
                                  end) (seq 10 90) = true)
    by (vm_compute; reflexivity).
  rewrite forallb_forall in H95, H99.
  split; intros Hn.
  - assert (Hin : In (length returns) (seq 10 10)) by (apply in_seq; lia).
    specialize (H95 _ Hin). cbv beta in H95.
    change (F2Z ((Z2F 1 - float_lit 0.95) * Z2F (Z.of_nat (length returns)))
            = Ok 0%Z).
    destruct (F2Z _) as [[| |]|]; [reflexivity|discriminate..].
  - assert (Hin : In (length returns) (seq 10 90)) by (apply in_seq; lia).
    specialize (H99 _ Hin). cbv beta in H99.
    change (F2Z ((Z2F 1 - float_lit 0.99) * Z2F (Z.of_nat (length returns)))
            = Ok 0%Z).
    destruct (F2Z _) as [[| |]|]; [reflexivity|discriminate..].
Qed.




(** Why the amended statement stops at a tail of one return.  The sum of
    three equal losses x = -0x1.8000000000006p-6 rounds toward zero, and
    the mean that comes out is one unit in the last place smaller in
    magnitude than x: with that tail the Expected Shortfall return falls
    below the VaR return although every tail return is a loss. *)
Example tail_mean_rounds_below_boundary_binary64 :
  var_cutoff
    [-0x1.8000000000006p-6; 0; -0x1.8000000000006p-6; 0; 0;
     -0x1.8000000000006p-6; 0; 0; 0; 0]%float 0.75%float
  = Ok (-0x1.8000000000006p-6)%float /\
  exists h e,
    historical_var
      [-0x1.8000000000006p-6; 0; -0x1.8000000000006p-6; 0; 0;
       -0x1.8000000000006p-6; 0; 0; 0; 0]%float 0.75%float 1000000%float
    = Ok (Some h) /\
    expected_shortfall
      [-0x1.8000000000006p-6; 0; -0x1.8000000000006p-6; 0; 0;
       -0x1.8000000000006p-6; 0; 0; 0; 0]%float 0.75%float 1000000%float
    = Ok (Some e) /\
    PrimFloat.ltb (es_return e) (var_return h) = true.
Proof.
  split; [vm_compute; reflexivity|].
  do 2 eexists. split; [vm_compute; reflexivity|].
  split; vm_compute; reflexivity.
Qed.

(* ===================================================================== *)
(** * VaRCalculator.historical_var                                        *)
(* ===================================================================== *)

(** C3, amended.  For fewer than 10 returns [historical_var] returns None.
    For 10 or more it sorts the returns ascending, takes the index
    k = int((1 - c) * n) -- truncation toward zero, the floor whenever
    (1 - c) * n is not negative -- and, when k is a position of the array
    (0 <= k < n), reports the VaR return |sorted[k]| * 100 and the dollar
    VaR |sorted[k] * v|, which is |sorted[k]| * |v|: a magnitude, whatever
    the sign of the position value. *)
Theorem historical_var_spec (returns : list float) (c v : float) :
  ((length returns < 10)%nat -> historical_var returns c v = Ok None) /\
  (forall k : Z,
      (10 <= length returns)%nat ->
      to_int ((of_int 1 - c) * of_int (len returns))%A = Ok k ->
      (0 <= k < len returns)%Z ->
      exists sorted x,
        sorted = np_sort returns /\
        Permutation sorted returns /\
        StronglySorted np_le sorted /\
        sorted !! Z.to_nat k = Some x /\
        historical_var returns c v
        = Ok (Some {| var_return := (abs x * 100)%float;
                      var_dollar := (abs x * abs v)%float;
                      confidence := c;
                      method := "Historical Simulation" |})).
Proof.
  split.
  - intros Hlt. unfold historical_var.
    destruct (Nat.ltb_spec (length returns) 10); [reflexivity|lia].
  - intros k Hlen Hk Hrange.
    assert (Hlen' : len (np_sort returns) = len returns).
    { unfold len. now rewrite np_sort_length. }
    rewrite <- Hlen' in Hrange.
    destruct (py_index_lookup _ k Hrange) as (x & Hlook & Hidx).
    exists (np_sort returns), x.
    split; [reflexivity|].
    split; [apply np_sort_perm|].
    split; [apply Binary64.np_sort_sorted_binary64|].
    split; [exact Hlook|].
    unfold historical_var, var_index_of.
    rewrite (length_ltb_10 _ Hlen), Hlen', Hk; simpl.
    rewrite Hidx; simpl. rewrite Binary64.abs_mul. reflexivity.
Qed.

(** C3, witness: the ten gains at confidence 0.5 (k = 5), and a series of
    nine returns. *)
Lemma historical_var_spec_witness :
  historical_var [0.01; 0.02; 0.03; 0.04; 0.05; 0.06; 0.07; 0.08; 0.09]%float
    0.5%float 1000000%float = Ok None /\
  exists sorted x,
    sorted = np_sort [0.10; 0.02; 0.03; 0.04; 0.05; 0.06; 0.07; 0.08; 0.09; 0.01]%float /\
    Permutation sorted [0.10; 0.02; 0.03; 0.04; 0.05; 0.06; 0.07; 0.08; 0.09; 0.01]%float /\
    StronglySorted np_le sorted /\
    sorted !! Z.to_nat 5 = Some x /\
    historical_var [0.10; 0.02; 0.03; 0.04; 0.05; 0.06; 0.07; 0.08; 0.09; 0.01]%float
      0.5%float 1000000%float
    = Ok (Some {| var_return := (abs x * 100)%float;
                  var_dollar := (abs x * abs 1000000)%float;
                  confidence := 0.5%float;
                  method := "Historical Simulation" |}).
Proof.
  split.
  - apply (proj1 (historical_var_spec _ 0.5%float 1000000%float)). simpl; lia.
  - apply (proj2 (historical_var_spec _ 0.5%float 1000000%float) 5%Z).
    + simpl; lia.
    + vm_compute; reflexivity.
    + vm_compute. split; [discriminate | reflexivity].
Defined.

(** C3, as stated, fails on the dollar figure.  With the position value
    -1000000 the reported dollar VaR is 60000, not |sorted[k]| * v =
    0.06 * -1000000 = -60000. *)
Lemma historical_var_dollar_is_a_magnitude :
  (10 <= length [0.01; 0.02; 0.03; 0.04; 0.05; 0.06; 0.07; 0.08; 0.09; 0.10]%float)%nat /\
  var_cutoff [0.01; 0.02; 0.03; 0.04; 0.05; 0.06; 0.07; 0.08; 0.09; 0.10]%float
    0.5%float = Ok 0.06%float /\
  historical_var [0.01; 0.02; 0.03; 0.04; 0.05; 0.06; 0.07; 0.08; 0.09; 0.10]%float
    0.5%float (-1000000)%float
  = Ok (Some {| var_return := 6%float; var_dollar := 60000%float;
                confidence := 0.5%float; method := "Historical Simulation" |}) /\
  (abs 0.06 * -1000000)%float = (-60000)%float /\
  PrimFloat.eqb 60000 (-60000) = false.
Proof. split; [simpl; lia|]. repeat split; vm_compute; reflexivity. Qed.

(** Outside 0 <= k < n the array is not indexed at a position of its own:
    at confidence 0 the index is n and the access raises IndexError, and so
    it does at a confidence so small that 1 - c rounds to 1. *)
Example historical_var_index_out_of_range :
  historical_var [0.01; 0.02; 0.03; 0.04; 0.05; 0.06; 0.07; 0.08; 0.09; 0.10]%float
    0%float 1000000%float = Raise IndexError /\
  historical_var [0.01; 0.02; 0.03; 0.04; 0.05; 0.06; 0.07; 0.08; 0.09; 0.10]%float
    1e-20%float 1000000%float = Raise IndexError.
Proof. split; vm_compute; reflexivity. Qed.

(** A confidence level that is not a number leaves [int] without a value:
    ValueError for NaN, OverflowError for an infinity. *)
Example historical_var_confidence_not_finite :
  historical_var [0.01; 0.02; 0.03; 0.04; 0.05; 0.06; 0.07; 0.08; 0.09; 0.10]%float
    nan 1000000%float = Raise ValueError /\
  historical_var [0.01; 0.02; 0.03; 0.04; 0.05; 0.06; 0.07; 0.08; 0.09; 0.10]%float
    neg_infinity 1000000%float = Raise OverflowError.
Proof. split; vm_compute; reflexivity. Qed.

(** The index is computed in binary64: at confidence 0.9 and n = 10 the
    product (1 - 0.9) * 10 is 0.9999999999999998 and the index is 0, where
    the floor of the real product would be 1. *)
Example var_index_at_confidence_0_9 :
  ((1 - 0.9) * 10)%float = 0.99999999999999978%float /\
  var_index_of 0.9%float
    [0.01; 0.02; 0.03; 0.04; 0.05; 0.06; 0.07; 0.08; 0.09; 0.10]%float = Ok 0%Z.
Proof. split; vm_compute; reflexivity. Qed.

(* ===================================================================== *)
(** * ReturnsEngine.calculate_returns                                     *)
(* ===================================================================== *)

Section ReturnsFacts.
Variable np_log : float -> float.

Lemma dropna_spec (s : list float) (x : float) :
  x ∈ dropna s <-> x ∈ s /\ PrimFloat.is_nan x = false.
Proof.
  unfold dropna. rewrite !list_elem_of_In, filter_In, negb_true_iff.
  reflexivity.
Qed.

Lemma zip_with_take_r {A B C : Type} (f : A -> B -> C) (l : list A) (k : list B) :
  zip_with f l (take (length l) k) = zip_with f l k.
Proof.
  revert k. induction l as [|a l IH]; intros [|b k]; simpl; try reflexivity.
  now rewrite IH.
Qed.

(** C2, amended.  For fewer than 2 prices [calculate_returns] returns
    None.  For 2 or more it returns the log-return series
    ln(P[t] / P[t-1]), t = 1 .. n-1, with the NaN entries removed -- and
    only those: an infinite log-return (a zero price on either side of
    the quotient) stays in the result. *)
Theorem calculate_returns_spec (close : list float) :
  (forall x, PrimFloat.is_nan x = true -> PrimFloat.is_nan (np_log x) = true) ->
  ((length close < 2)%nat -> calculate_returns np_log close = None) /\
  ((2 <= length close)%nat ->
     calculate_returns np_log close = Some (dropna (log_returns np_log close)) /\
     forall x, x ∈ log_returns np_log close ->
               PrimFloat.is_nan x = false ->
               x ∈ dropna (log_returns np_log close)).
Proof.
  intros Hnan. split.
  - intros Hlt. unfold calculate_returns.
    destruct (Nat.ltb_spec (length close) 2); [reflexivity|lia].
  - intros Hlen. split.
    + unfold calculate_returns, log_returns, shift1.
      destruct (Nat.ltb_spec (length close) 2); [lia|].
      destruct close as [|p0 rest]; [simpl in Hlen; lia|].
      simpl. rewrite (Hnan _ (Binary64.div_nan p0)). simpl.
      rewrite drop_0, zip_with_take_r.
      f_equal. unfold dropna. f_equal.
      clear. generalize (p0 :: rest).
      induction rest as [|p rest IH]; intros [|q l]; simpl; try reflexivity.
      now rewrite IH.
    + intros x Hin Hx. apply dropna_spec. now split.
Qed.
End ReturnsFacts.

(** C2, witness.  Prices 2, 2, 0, 0, 3: the ratios are NaN (shifted-in),
    1, 0, NaN (0/0) and +inf; the two NaN log-returns go, -inf and +inf
    stay. *)
Lemma calculate_returns_spec_witness :
  calculate_returns log_special [2; 2]%float = Some [0%float] /\
  calculate_returns log_special [7]%float = None /\
  calculate_returns log_special [2; 2; 0; 0; 3]%float
  = Some (dropna (log_returns log_special [2; 2; 0; 0; 3]%float)).
Proof.
  assert (Hnan : forall x, PrimFloat.is_nan x = true ->
                           PrimFloat.is_nan (log_special x) = true).
  { intros x Hx. unfold log_special. rewrite Hx. reflexivity. }
  split; [vm_compute; reflexivity|].
  split.
  - apply (proj1 (calculate_returns_spec log_special [7]%float Hnan)). simpl; lia.
  - apply (proj2 (calculate_returns_spec log_special [2; 2; 0; 0; 3]%float Hnan)).
    simpl; lia.
Defined.

(** C2, as stated, fails on the infinities.  Prices 1, 0, 2: the
    log-returns are log(0/1) = -inf and log(2/0) = +inf, and both are in
    the result, whatever the logarithm is at ordinary arguments. *)
Lemma calculate_returns_keeps_infinities :
  (2 <= length [1; 0; 2]%float)%nat /\
  PrimFloat.is_finite PrimFloat.neg_infinity = false /\
  PrimFloat.is_finite PrimFloat.infinity = false /\
  calculate_returns log_special [1; 0; 2]%float
  = Some [PrimFloat.neg_infinity; PrimFloat.infinity] /\
  (forall np_log : float -> float,
      PrimFloat.is_nan (np_log PrimFloat.nan) = true ->
      np_log 0%float = PrimFloat.neg_infinity ->
      np_log PrimFloat.infinity = PrimFloat.infinity ->
      calculate_returns np_log [1; 0; 2]%float
      = Some [PrimFloat.neg_infinity; PrimFloat.infinity]).
Proof.
  split; [simpl; lia|].
  split; [reflexivity|]. split; [reflexivity|].
  split; [vm_compute; reflexivity|].
  intros np_log Hnan H0 Hinf.
  unfold calculate_returns, shift1, dropna. simpl.
  change (1 / nan)%float with nan. change (0 / 1)%float with 0%float.
  change (2 / 0)%float with infinity.
  unfold PrimFloat.nan, PrimFloat.infinity, PrimFloat.neg_infinity in *.
  rewrite Hnan, H0, Hinf. reflexivity.
Qed.

(* ===================================================================== *)
(** * BacktestEngine: traffic light and Kupiec test                       *)
(* ===================================================================== *)

Lemma confidence_is_0_95 : (0.95%float =? lit 0.95)%A = true.
Proof. vm_compute; reflexivity. Qed.

Lemma confidence_is_not_0_95 : (0.99%float =? lit 0.95)%A = false.
Proof. vm_compute; reflexivity. Qed.

(** The two tables of [basel_traffic_light]. *)
Lemma basel_traffic_light_at_0_95 (b n : Z) (c : float) :
  (c =? lit 0.95)%A = true ->
  basel_traffic_light b n c
  = if (b <=? 4)%Z then ("GREEN", "Model is accurate")
    else if (b <=? 9)%Z then ("YELLOW", "Model needs attention")
    else ("RED", "Model is inadequate").
Proof. intros E. unfold basel_traffic_light. now rewrite E. Qed.

Lemma basel_traffic_light_elsewhere (b n : Z) (c : float) :
  (c =? lit 0.95)%A = false ->
  basel_traffic_light b n c
  = if (b <=? 2)%Z then ("GREEN", "Model is accurate")
    else ("RED", "Model is inadequate").
Proof. intros E. unfold basel_traffic_light. now rewrite E. Qed.

(** C4.  At confidence 0.95 the light is GREEN exactly for b <= 4, YELLOW
    exactly for 5 <= b <= 9 and RED exactly for b >= 10; at confidence 0.99
    it is GREEN exactly for b <= 2 and RED otherwise, never YELLOW; and
    the result does not depend on total_days. *)
Theorem basel_traffic_light_bands (b n : Z) :
  ((basel_traffic_light b n 0.95%float).1 = "GREEN" <-> (b <= 4)%Z) /\
  ((basel_traffic_light b n 0.95%float).1 = "YELLOW" <-> (5 <= b <= 9)%Z) /\
  ((basel_traffic_light b n 0.95%float).1 = "RED" <-> (10 <= b)%Z) /\
  ((basel_traffic_light b n 0.99%float).1 = "GREEN" <-> (b <= 2)%Z) /\
  ((basel_traffic_light b n 0.99%float).1 = "RED" <-> (3 <= b)%Z) /\
  ((basel_traffic_light b n 0.99%float).1 = "GREEN" \/
   (basel_traffic_light b n 0.99%float).1 = "RED") /\
  (forall (n' : Z) (c : float),
      basel_traffic_light b n' c = basel_traffic_light b n c).
Proof.
  rewrite (basel_traffic_light_at_0_95 b n _ confidence_is_0_95).
  rewrite (basel_traffic_light_elsewhere b n _ confidence_is_not_0_95).
  destruct (Z.leb_spec b 4), (Z.leb_spec b 9), (Z.leb_spec b 2); simpl;
    repeat split; intros; try lia; try discriminate; try reflexivity;
    try (left; reflexivity); try (right; reflexivity).
Qed.

(** C10.  For every confidence level that does not compare equal to 0.95
    (0.90, 0.999, ...) [basel_traffic_light] answers with the 99% band:
    GREEN exactly for b <= 2 and RED otherwise; a YELLOW answer is given
    only at a confidence level equal to 0.95. *)
Theorem basel_traffic_light_other_levels (b n : Z) (c : float) :
  PrimFloat.eqb c 0.95 = false ->
  ((basel_traffic_light b n c).1 = "GREEN" <-> (b <= 2)%Z) /\
  ((basel_traffic_light b n c).1 = "RED" <-> (3 <= b)%Z) /\
  basel_traffic_light b n c = basel_traffic_light b n 0.99%float /\
  (forall (b' n' : Z) (c' : float),
      (basel_traffic_light b' n' c').1 = "YELLOW" -> PrimFloat.eqb c' 0.95 = true).
Proof.
  intros E.
  assert (E' : (c =? lit 0.95)%A = false) by exact E.
  rewrite (basel_traffic_light_elsewhere b n c E').
  rewrite (basel_traffic_light_elsewhere b n _ confidence_is_not_0_95).
  split; [|split; [|split]].
  - destruct (Z.leb_spec b 2); simpl; split; intros; try lia; try discriminate; reflexivity.
  - destruct (Z.leb_spec b 2); simpl; split; intros; try lia; try discriminate; reflexivity.
  - reflexivity.
  - intros b' n' c' Hy.
    destruct (PrimFloat.eqb c' 0.95) eqn:Ec'; [reflexivity|].
    assert (Ec : (c' =? lit 0.95)%A = false) by exact Ec'.
    rewrite (basel_traffic_light_elsewhere b' n' c' Ec) in Hy.
    destruct (b' <=? 2)%Z; discriminate.
Qed.

(** C10, witness: confidence 0.90 with 5 breaches, and 0.999 with 2. *)
Lemma basel_traffic_light_other_levels_witness :
  (basel_traffic_light 5 250 0.90%float).1 = "RED" /\
  (basel_traffic_light 2 250 0.999%float).1 = "GREEN".
Proof.
  split.
  - apply (basel_traffic_light_other_levels 5 250 0.90%float); [reflexivity|lia].
  - apply (basel_traffic_light_other_levels 2 250 0.999%float); [reflexivity|lia].
Defined.

Section KupiecFacts.
Variable py_pow : float -> Z -> result float.
Variable np_log : float -> float.
Variable chi2_cdf : float -> float.

(** C5.  For total_days >= 1 and every confidence level, [kupiec_test]
    returns a result whose likelihood-ratio statistic is exactly 0 when
    the breach count is 0 or equals total_days (and does not reject
    then); every result it returns carries the critical value 3.841 and
    has reject_model true exactly when the statistic exceeds 3.841,
    whatever the confidence level; and it returns a result whenever the
    four powers it takes are defined. *)
Theorem kupiec_test_spec (b n : Z) (c : float) :
  (1 <= n)%Z ->
  ((b = 0 \/ b = n)%Z ->
     exists r, kupiec_test py_pow np_log chi2_cdf b n c = Ok r /\
               lr_statistic r = 0%float /\
               reject_model r = false) /\
  (forall r, kupiec_test py_pow np_log chi2_cdf b n c = Ok r ->
             critical_value r = 3.841%float /\
             reject_model r = PrimFloat.ltb 3.841 (lr_statistic r)) /\
  ((forall x k, exists y, py_pow x k = Ok y) ->
     exists r, kupiec_test py_pow np_log chi2_cdf b n c = Ok r).
Proof.
  intros Hn.
  assert (Hdiv : int_truediv b n = Ok (Z2F b / Z2F n)%float).
  { unfold int_truediv. destruct (Z.eqb_spec n 0); [lia|reflexivity]. }
  unfold kupiec_test. rewrite Hdiv. simpl rbind.
  split; [|split].
  - intros Hb.
    assert (E : (b =? 0)%Z || (b =? n)%Z = true).
    { destruct Hb as [->| ->]; [reflexivity|].
      rewrite Z.eqb_refl. apply orb_true_r. }
    rewrite E. simpl rbind. eexists. split; [reflexivity|].
    split; reflexivity.
  - intros r Hr.
    destruct ((b =? 0)%Z || (b =? n)%Z).
    + simpl in Hr. injection Hr as <-. split; reflexivity.
    + destruct (py_pow _ b) as [e1|]; [|discriminate].
      destruct (py_pow _ (n - b)) as [e2|]; [|discriminate].
      destruct (py_pow _ b) as [o1|]; [|discriminate].
      destruct (py_pow _ (n - b)) as [o2|]; [|discriminate].
      simpl in Hr. injection Hr as <-. split; reflexivity.
  - intros Hpow.
    destruct ((b =? 0)%Z || (b =? n)%Z); [eexists; reflexivity|].
    repeat match goal with
           | |- context [py_pow ?x ?k] =>
               let y := fresh "y" in
               destruct (Hpow x k) as [y ->]; simpl rbind
           end.
    eexists; reflexivity.
Qed.
End KupiecFacts.

(** C5, witness: no breach in 250 days at confidence 0.95, and 250
    breaches in 250 days at confidence 0.99. *)
Lemma kupiec_test_spec_witness :
  (exists r, kupiec_test pow_repeated log_special chi2_cdf_at_0 0 250 0.95%float = Ok r /\
             lr_statistic r = 0%float /\ reject_model r = false) /\
  (exists r, kupiec_test pow_repeated log_special chi2_cdf_at_0 250 250 0.99%float = Ok r /\
             lr_statistic r = 0%float /\ reject_model r = false).
Proof.
  split.
  - apply (kupiec_test_spec pow_repeated log_special chi2_cdf_at_0 0 250 0.95%float);
      [lia | left; reflexivity].
  - apply (kupiec_test_spec pow_repeated log_special chi2_cdf_at_0 250 250 0.99%float);
      [lia | right; reflexivity].
Defined.

(* ===================================================================== *)
(** * AlertMonitor.check_breach                                           *)
(* ===================================================================== *)

Section CheckBreachFacts.
Context {F : Type} `{Arith F}.

(** The list handed back: first match wins. *)
Lemma check_breach_returned (self : Monitor F) (r v95 v99 : F)
    (sym : string) (now : Z) :
  (check_breach self r v95 v99 sym now).2
  = if (fabs (r * of_int 100) >? v99)%A then
      [ {| level := "99%"; severity := "CRITICAL"; symbol := sym;
           alert_return := (r * of_int 100)%A; threshold := v99;
           excess := (fabs (r * of_int 100) - v99)%A; timestamp := now |} ]
    else if (fabs (r * of_int 100) >? v95)%A then
      [ {| level := "95%"; severity := "WARNING"; symbol := sym;
           alert_return := (r * of_int 100)%A; threshold := v95;
           excess := (fabs (r * of_int 100) - v95)%A; timestamp := now |} ]
    else [].
Proof.
  unfold check_breach.
  destruct (fabs (r * of_int 100) >? v99)%A; [reflexivity|].
  destruct (fabs (r * of_int 100) >? v95)%A; reflexivity.
Qed.

(** The state left behind: the alerts handed back are appended to the
    deque and counted at their level. *)
Lemma check_breach_state (self : Monitor F) (r v95 v99 : F)
    (sym : string) (now : Z) :
  (check_breach self r v95 v99 sym now).1
  = {| alerts := fold_left (deque_append (maxlen self))
                   (check_breach self r v95 v99 sym now).2 (alerts self);
       maxlen := maxlen self;
       breach_count_95 :=
         breach_count_95 self
         + count_level "95%" (check_breach self r v95 v99 sym now).2;
       breach_count_99 :=
         breach_count_99 self
         + count_level "99%" (check_breach self r v95 v99 sym now).2 |}.
Proof.
  unfold check_breach.
  destruct (fabs (r * of_int 100) >? v99)%A;
    [|destruct (fabs (r * of_int 100) >? v95)%A];
    unfold count_level, len; simpl; f_equal; lia.
Qed.
End CheckBreachFacts.

(** C6.  [check_breach] compares |r| * 100 with the thresholds in order of
    severity.  Above var_99 it hands back exactly one CRITICAL alert at
    level 99% whose excess is |r| * 100 - var_99 (and nothing at level
    95%); otherwise, above var_95, exactly one WARNING alert at level 95%
    whose excess is |r| * 100 - var_95; otherwise nothing.  With r = 0.12,
    var_95 = 10 and var_99 = 15 the outcome is one WARNING at level 95%
    with excess 2. *)
Theorem check_breach_spec (self : Monitor float) (r v95 v99 : float)
    (sym : string) (now : Z) :
  (check_breach self r v95 v99 sym now).2
  = (if PrimFloat.ltb v99 (abs r * 100) then
       [ {| level := "99%"; severity := "CRITICAL"; symbol := sym;
            alert_return := (r * 100)%float; threshold := v99;
            excess := (abs r * 100 - v99)%float; timestamp := now |} ]
     else if PrimFloat.ltb v95 (abs r * 100) then
       [ {| level := "95%"; severity := "WARNING"; symbol := sym;
            alert_return := (r * 100)%float; threshold := v95;
            excess := (abs r * 100 - v95)%float; timestamp := now |} ]
     else []) /\
  (check_breach self 0.12%float 10%float 15%float sym now).2
  = [ {| level := "95%"; severity := "WARNING"; symbol := sym;
         alert_return := 12%float; threshold := 10%float;
         excess := 2%float; timestamp := now |} ].
Proof.
  assert (E : forall x : float, fabs (x * of_int 100)%A = (abs x * 100)%float).
  { intros x. simpl. rewrite Binary64.abs_mul. reflexivity. }
  split.
  - rewrite check_breach_returned, E. reflexivity.
  - rewrite check_breach_returned. reflexivity.
Qed.

(* ===================================================================== *)
(** * AlertMonitor: the ring and the lifetime counters                    *)
(* ===================================================================== *)

Section Ring.
Context {A : Type}.

Lemma lastn_all (n : nat) (l : list A) : (length l <= n)%nat -> lastn n l = l.
Proof.
  intros Hl. unfold lastn. replace (length l - n)%nat with 0%nat by lia.
  apply drop_0.
Qed.

Lemma length_lastn (n : nat) (l : list A) :
  length (lastn n l) = Nat.min (length l) n.
Proof. unfold lastn. rewrite length_drop. lia. Qed.

Lemma lastn_app_lastn (n : nat) (a b : list A) :
  lastn n (lastn n a ++ b) = lastn n (a ++ b).
Proof.
  destruct (Nat.le_gt_cases (length a) n) as [Hle|Hgt].
  - now rewrite (lastn_all n a Hle).
  - unfold lastn at 1 3. rewrite !length_app, length_lastn.
    unfold lastn. rewrite <- (drop_app_le a b (length a - n)) by lia.
    rewrite drop_drop. f_equal. lia.
Qed.

(** Appending to a bounded deque keeps the last [n] entries. *)
Lemma deque_append_lastn (n : nat) (d : list A) (x : A) :
  (length d <= n)%nat -> deque_append n d x = lastn n (d ++ [x]).
Proof.
  intros Hd. unfold deque_append, lastn. rewrite length_app; simpl.
  destruct (Nat.ltb_spec n (length d + 1)) as [Hlt|Hge].
  - replace (length d + 1 - n)%nat with 1%nat by lia. reflexivity.
  - replace (length d + 1 - n)%nat with 0%nat by lia. now rewrite drop_0.
Qed.

Lemma fold_left_deque_append (n : nat) (l d : list A) :
  (length d <= n)%nat ->
  fold_left (deque_append n) l d = lastn n (d ++ l).
Proof.
  revert d. induction l as [|x l IH]; intros d Hd; simpl.
  - rewrite app_nil_r. symmetry. now apply lastn_all.
  - rewrite IH.
    + rewrite (deque_append_lastn n d x Hd), lastn_app_lastn.
      now rewrite <- app_assoc.
    + rewrite (deque_append_lastn n d x Hd), length_lastn. lia.
Qed.
End Ring.

Section MonitorFacts.
Context {F : Type} `{Arith F}.

Lemma count_level_app (lv : string) (a b : list (Alert F)) :
  count_level lv (a ++ b) = (count_level lv a + count_level lv b)%Z.
Proof.
  unfold count_level, len. rewrite List.filter_app, length_app. lia.
Qed.

Lemma count_level_nonneg (lv : string) (a : list (Alert F)) :
  (0 <= count_level lv a)%Z.
Proof. unfold count_level, len. lia. Qed.

(** Every alert handed back is at one of the two levels. *)
Lemma returned_levels (self : Monitor F) (c : call) :
  (count_level "95%" (returned self c) + count_level "99%" (returned self c))%Z
  = len (returned self c).
Proof.
  destruct c as [r v95 v99 sym now| | |]; try reflexivity.
  unfold returned. rewrite check_breach_returned.
  destruct (fabs (r * of_int 100) >? v99)%A;
    [|destruct (fabs (r * of_int 100) >? v95)%A]; reflexivity.
Qed.

Lemma emitted_levels (self : Monitor F) (cs : list call) :
  (count_level "95%" (emitted self cs) + count_level "99%" (emitted self cs))%Z
  = len (emitted self cs).
Proof.
  revert self. induction cs as [|c cs IH]; intros self; simpl; [reflexivity|].
  rewrite !count_level_app. unfold len in *. rewrite length_app.
  specialize (IH (step self c)). pose proof (returned_levels self c) as Hc.
  unfold len in Hc. lia.
Qed.

(** The ring never exceeds its capacity, and the capacity never changes. *)
Lemma step_invariant (s : Monitor F) (c : call) :
  (length (alerts s) <= maxlen s)%nat ->
  (length (alerts (step s c)) <= maxlen (step s c))%nat /\
  maxlen (step s c) = maxlen s.
Proof.
  intros Hs. destruct c as [r v95 v99 sym now| | |]; simpl;
    try (split; [lia|reflexivity]).
  rewrite check_breach_state; simpl.
  rewrite fold_left_deque_append, length_lastn by exact Hs. split; [lia|reflexivity].
Qed.

Lemma run_invariant (s : Monitor F) (cs : list call) :
  (length (alerts s) <= maxlen s)%nat ->
  (length (alerts (run s cs)) <= maxlen s)%nat /\ maxlen (run s cs) = maxlen s.
Proof.
  revert s. induction cs as [|c cs IH]; intros s Hs; simpl; [split; [exact Hs|reflexivity]|].
  destruct (step_invariant s c Hs) as [H1 H2].
  destruct (IH (step s c) H1) as [H3 H4]. fold (run (step s c) cs).
  rewrite <- H2. split; [exact H3|]. now rewrite H4.
Qed.

(** A run of [check_breach] calls: the ring holds the last [maxlen]
    alerts of those it held and those emitted since, and each counter has
    grown by the number of alerts emitted at its level. *)
Lemma run_checks (s : Monitor F) (cs : list call) :
  (length (alerts s) <= maxlen s)%nat ->
  forallb is_check cs = true ->
  alerts (run s cs) = lastn (maxlen s) (alerts s ++ emitted s cs) /\
  breach_count_95 (run s cs)
  = (breach_count_95 s + count_level "95%" (emitted s cs))%Z /\
  breach_count_99 (run s cs)
  = (breach_count_99 s + count_level "99%" (emitted s cs))%Z.
Proof.
  revert s. induction cs as [|c cs IH]; intros s Hs Hcs; simpl.
  - rewrite app_nil_r, lastn_all by exact Hs.
    unfold count_level, len; simpl. repeat split; lia.
  - simpl in Hcs. apply andb_true_iff in Hcs as [Hc Hcs].
    destruct (step_invariant s c Hs) as [H1 H2].
    destruct (IH (step s c) H1 Hcs) as (Ha & H95 & H99).
    fold (run (step s c) cs). rewrite Ha, H95, H99, H2, !count_level_app.
    destruct c as [r v95 v99 sym now| | |]; try discriminate.
    unfold step, returned. rewrite check_breach_state; simpl.
    rewrite fold_left_deque_append by exact Hs.
    rewrite lastn_app_lastn, <- app_assoc.
    repeat split; lia.
Qed.

(** Outside [reset_counts] no call lowers a counter or shortens the ring. *)
Lemma step_monotone (s : Monitor F) (c : call) :
  is_reset c = false ->
  (breach_count_95 s <= breach_count_95 (step s c))%Z /\
  (breach_count_99 s <= breach_count_99 (step s c))%Z /\
  ((length (alerts s) <= maxlen s)%nat ->
   (length (alerts s) <= length (alerts (step s c)))%nat).
Proof.
  intros Hc. destruct c as [r v95 v99 sym now| | |]; try discriminate;
    simpl; try (repeat split; lia).
  rewrite check_breach_state; simpl.
  pose proof (count_level_nonneg "95%" (check_breach s r v95 v99 sym now).2).
  pose proof (count_level_nonneg "99%" (check_breach s r v95 v99 sym now).2).
  repeat split; try lia.
  intros Hs. rewrite fold_left_deque_append, length_lastn, length_app by exact Hs.
  lia.
Qed.
End MonitorFacts.

(** C7.  A monitor of capacity K never holds more than K alerts, whatever
    calls are made on it.  After any sequence of [check_breach] calls the
    ring holds the last K alerts emitted (the oldest are the ones
    evicted), while each lifetime counter equals the number of all alerts
    emitted at its level, evicted or not; so the summary's total is the
    smaller of K and the number emitted, and the two counters add up to the
    number emitted.  No call other than [reset_counts] lowers a counter or
    shortens the ring; [reset_counts] empties the ring and zeroes both
    counters.  In particular 100 warnings followed by 50 critical alerts
    on a monitor of capacity 100 leave total_alerts = 100 with counters
    100 and 50. *)
Theorem alert_ring_and_lifetime_counters
    {F : Type} `{Arith F} (K : nat) (cs : list call) :
  (length (alerts (run (init K) cs)) <= K)%nat /\
  (forallb is_check cs = true ->
     alerts (run (init K) cs) = lastn K (emitted (init K) cs) /\
     breach_count_95 (run (init K) cs) = count_level "95%" (emitted (init K) cs) /\
     breach_count_99 (run (init K) cs) = count_level "99%" (emitted (init K) cs) /\
     total_alerts (get_alert_summary (run (init K) cs))
     = Z.min (len (emitted (init K) cs)) (Z.of_nat K) /\
     (n95_breaches (get_alert_summary (run (init K) cs))
      + n99_breaches (get_alert_summary (run (init K) cs)))%Z
     = len (emitted (init K) cs)) /\
  (forall (s : Monitor F) (c : call),
      is_reset c = false ->
      (breach_count_95 s <= breach_count_95 (step s c))%Z /\
      (breach_count_99 s <= breach_count_99 (step s c))%Z /\
      ((length (alerts s) <= maxlen s)%nat ->
       (length (alerts s) <= length (alerts (step s c)))%nat)) /\
  (forall s : Monitor F,
      alerts (reset_counts s) = [] /\
      breach_count_95 (reset_counts s) = 0%Z /\
      breach_count_99 (reset_counts s) = 0%Z) /\
  (total_alerts
     (get_alert_summary
        (run (init 100)
           (replicate 100 (CheckBreach 0.12%float 10%float 15%float "PORTFOLIO" 0)
            ++ replicate 50 (CheckBreach (-0.20)%float 10%float 15%float "PORTFOLIO" 0))))
   = 100%Z /\
   n95_breaches
     (get_alert_summary
        (run (init 100)
           (replicate 100 (CheckBreach 0.12%float 10%float 15%float "PORTFOLIO" 0)
            ++ replicate 50 (CheckBreach (-0.20)%float 10%float 15%float "PORTFOLIO" 0))))
   = 100%Z /\
   n99_breaches
     (get_alert_summary
        (run (init 100)
           (replicate 100 (CheckBreach 0.12%float 10%float 15%float "PORTFOLIO" 0)
            ++ replicate 50 (CheckBreach (-0.20)%float 10%float 15%float "PORTFOLIO" 0))))
   = 50%Z).
Proof.
  assert (Hinit : (length (alerts (init (F:=F) K)) <= maxlen (init (F:=F) K))%nat)
    by (simpl; lia).
  split; [|split; [|split; [|split]]].
  - apply (run_invariant (init K) cs Hinit).
  - intros Hcs.
    destruct (run_checks (init K) cs Hinit Hcs) as (Ha & H95 & H99).
    simpl in Ha, H95, H99.
    pose proof (emitted_levels (init K) cs) as Hlv.
    repeat split; try assumption.
    + unfold get_alert_summary; simpl. rewrite Ha. unfold len.
      rewrite length_lastn. lia.
    + unfold get_alert_summary; simpl. rewrite H95, H99. exact Hlv.
  - apply step_monotone.
  - intros s. repeat split.
  - repeat split; vm_compute; reflexivity.
Qed.

(** C7, witness: 150 alerts on a monitor of capacity 100. *)
Lemma alert_ring_and_lifetime_counters_witness :
  total_alerts
    (get_alert_summary
       (run (init 100)
          (replicate 150 (CheckBreach 0.12%float 10%float 15%float "PORTFOLIO" 0))))
  = Z.min
      (len (emitted (init 100)
              (replicate 150 (CheckBreach 0.12%float 10%float 15%float "PORTFOLIO" 0))))
      (Z.of_nat 100).
Proof.
  destruct (alert_ring_and_lifetime_counters 100
              (replicate 150 (CheckBreach 0.12%float 10%float 15%float "PORTFOLIO" 0)))
    as (_ & Hchecks & _).
  destruct Hchecks as (_ & _ & _ & Htotal & _); [vm_compute; reflexivity|].
  exact Htotal.
Defined.

(* ===================================================================== *)
(** * StressTestEngine.apply_scenario                                     *)
(* ===================================================================== *)

Section StressFacts.
Context {F : Type} `{Arith F}.

Lemma apply_scenario_unknown (scenario_name : string)
    (position_values : list (string * F)) :
  scenarios !! scenario_name = None ->
  apply_scenario scenario_name position_values = Ok None.
Proof. intros E. unfold apply_scenario. now rewrite E. Qed.

Lemma instrument_loss_index (scenario : Scenario F) (symbol : string) (p : F) :
  str_in "^NSEI" symbol = true ->
  instrument_loss scenario symbol p = (p * fabs (nifty_shock scenario))%A.
Proof. intros E. unfold instrument_loss. now rewrite E. Qed.

Lemma instrument_loss_other (scenario : Scenario F) (symbol : string) (p : F) :
  str_in "^NSEI" symbol = false ->
  instrument_loss scenario symbol p
  = (p * fabs (nifty_shock scenario
               * default (lit 0.8) (equity_correlation scenario)))%A.
Proof.
  intros E. unfold instrument_loss. rewrite E.
  now destruct (equity_correlation scenario).
Qed.

(** The loop over positions none of which is zero. *)
Lemma scenario_loop (scenario : Scenario F) (position_values : list (string * F))
    (results : gmap string (AssetLoss F)) (total : F) :
  Forall (fun item => (item.2 =? of_int 0)%A = false) position_values ->
  for_each (scenario_step scenario) (results, total) position_values
  = Ok (fold_left (fun m item => <[item.1 := breakdown_entry scenario item]> m)
          position_values results,
        fold_left fadd
          (map (fun item => instrument_loss scenario item.1 item.2) position_values)
          total).
Proof.
  intros Hnz. revert results total.
  induction Hnz as [|[symbol p] l Hp Hl IH]; intros results total; simpl;
    [reflexivity|].
  unfold py_truediv. simpl in Hp. rewrite Hp. simpl. apply IH.
Qed.

(** A zero position stops the loop at the quotient [loss / position]. *)
Lemma scenario_loop_zero (scenario : Scenario F) (symbol : string) (p : F)
    (rest : list (string * F)) (st : gmap string (AssetLoss F) * F) :
  (p =? of_int 0)%A = true ->
  for_each (scenario_step scenario) st ((symbol, p) :: rest)
  = Raise ZeroDivisionError.
Proof.
  intros Hp. destruct st as [results total]. simpl.
  unfold py_truediv. now rewrite Hp.
Qed.

Lemma fold_insert_lookup_notin {V : Type} (f : string * F -> V)
    (l : list (string * F)) (m : gmap string V) (k : string) :
  k ∉ l.*1 ->
  fold_left (fun m item => <[item.1 := f item]> m) l m !! k = m !! k.
Proof.
  revert m. induction l as [|item l IH]; intros m Hk; simpl; [reflexivity|].
  rewrite fmap_cons, not_elem_of_cons in Hk. destruct Hk as [Hne Hk].
  rewrite IH by exact Hk. now apply lookup_insert_ne.
Qed.

Lemma fold_insert_lookup {V : Type} (f : string * F -> V)
    (l : list (string * F)) (m : gmap string V) (item : string * F) :
  NoDup l.*1 -> item ∈ l ->
  fold_left (fun m item => <[item.1 := f item]> m) l m !! item.1 = Some (f item).
Proof.
  revert m. induction l as [|item' l IH]; intros m Hnd Hin; simpl.
  - now apply elem_of_nil in Hin.
  - rewrite fmap_cons in Hnd. apply NoDup_cons in Hnd as [Hnotin Hnd].
    apply elem_of_cons in Hin as [->|Hin].
    + rewrite fold_insert_lookup_notin by exact Hnotin. apply lookup_insert_eq.
    + now apply IH.
Qed.

(** For a catalog scenario and positions none of which is zero: every
    instrument gets its loss, and the total is their sum, accumulated in
    the order of the positions. *)
Lemma apply_scenario_losses (scenario_name : string) (scenario : Scenario F)
    (position_values : list (string * F)) :
  scenarios !! scenario_name = Some scenario ->
  Forall (fun item => (item.2 =? of_int 0)%A = false) position_values ->
  exists res,
    apply_scenario scenario_name position_values = Ok (Some res) /\
    total_loss res
    = fold_left fadd
        (map (fun item => instrument_loss scenario item.1 item.2) position_values)
        (of_int 0) /\
    (NoDup position_values.*1 ->
     forall item, item ∈ position_values ->
       asset_breakdown res !! item.1 = Some (breakdown_entry scenario item)).
Proof.
  intros Hsc Hnz. unfold apply_scenario. rewrite Hsc.
  rewrite (scenario_loop scenario position_values ∅ (of_int 0) Hnz). simpl.
  eexists. split; [reflexivity|]. split; [reflexivity|]. simpl.
  intros Hnd item Hin. now apply fold_insert_lookup.
Qed.
End StressFacts.

(** The example of the specification: a market crash on an index position
    of 10,000,000 and an equity position of 5,000,000. *)
Example apply_scenario_market_crash :
  exists res,
    apply_scenario "market_crash"
      [("^NSEI", 10000000%float); ("RELIANCE.NS", 5000000%float)] = Ok (Some res) /\
    loss <$> (asset_breakdown res !! "^NSEI") = Some 1500000%float /\
    loss <$> (asset_breakdown res !! "RELIANCE.NS") = Some 675000%float /\
    total_loss res = 2175000%float.
Proof.
  eexists. split; [vm_compute; reflexivity|].
  repeat split; vm_compute; reflexivity.
Qed.

(** C8.  The claim holds wherever [apply_scenario] returns
    ([apply_scenario_unknown], [apply_scenario_losses],
    [apply_scenario_market_crash]), but it does not return for every
    position map: a position of 0 makes the loss percentage
    [loss / position] raise ZeroDivisionError, so no loss is reported for
    that instrument, nor a total for the portfolio. *)
Theorem apply_scenario_zero_position :
  apply_scenario "market_crash"
    [("^NSEI", 10000000%float); ("TCS.NS", of_int 0)]
  = Raise ZeroDivisionError /\
  exists scenario,
    scenarios !! "market_crash" = Some scenario /\
    instrument_loss scenario "TCS.NS" (of_int 0) = 0%float.
Proof.
  split; [vm_compute; reflexivity|].
  eexists. split; vm_compute; reflexivity.
Qed.

(* ===================================================================== *)
(** * The aggregates: calculate_all_metrics and backtest_results          *)
(* ===================================================================== *)

Lemma label_of_0_95 : label_of (lit 0.95 : float) = Ok "95%".
Proof. vm_compute; reflexivity. Qed.

Lemma label_of_0_99 : label_of (lit 0.99 : float) = Ok "99%".
Proof. vm_compute; reflexivity. Qed.

Lemma lookup_store_if {F A : Type} (inj : A -> metric F) (key k : string)
    (x : option A) (m : gmap string (metric F)) :
  store_if inj key x m !! k
  = if decide (key = k) then
      match x with
      | Some r => Some (inj r)
      | None => m !! k
      end
    else m !! k.
Proof.
  unfold store_if. destruct x as [r|]; [apply lookup_insert|].
  now destruct (decide (key = k)).
Qed.

Section AggregateFacts.
Variable series_mean : list float -> float.
Variable series_std : list float -> float.
Variable norm_ppf : float -> float.
Variable py_pow : float -> Z -> result float.
Variable np_log : float -> float.
Variable chi2_cdf : float -> float.

Lemma parametric_var_returns (returns : list float) (c v : float) :
  exists p, parametric_var series_mean series_std norm_ppf returns c v = Ok p /\
            (p = None <-> (length returns < 10)%nat).
Proof.
  unfold parametric_var. destruct (Nat.ltb_spec (length returns) 10).
  - eexists. split; [reflexivity|]. split; [intros _; lia|reflexivity].
  - eexists. split; [reflexivity|]. split; [discriminate|lia].
Qed.

Lemma backtest_step_missing (returns : list float)
    (var_metrics : gmap string (metric float))
    (results : gmap string (BacktestReport float)) (conf : float) (label : string) :
  label_of conf = Ok label ->
  var_metrics !! ("var_" +:+ label +:+ "_hist") = None ->
  backtest_step py_pow np_log chi2_cdf returns var_metrics results conf = Ok results.
Proof. intros Hl Hk. unfold backtest_step. rewrite Hl; simpl. now rewrite Hk. Qed.

(** When a turn of the loop returns, it has added its label exactly when
    the key was there, and touched no other label. *)
Lemma backtest_step_returns (returns : list float)
    (var_metrics : gmap string (metric float))
    (results results' : gmap string (BacktestReport float))
    (conf : float) (label : string) :
  label_of conf = Ok label ->
  backtest_step py_pow np_log chi2_cdf returns var_metrics results conf = Ok results' ->
  (forall l, l <> label -> results' !! l = results !! l) /\
  (var_metrics !! ("var_" +:+ label +:+ "_hist") = None -> results' = results) /\
  (var_metrics !! ("var_" +:+ label +:+ "_hist") <> None -> results' !! label <> None).
Proof.
  intros Hl. unfold backtest_step. rewrite Hl; simpl.
  destruct (var_metrics !! _) as [[r|r]|] eqn:Hk; simpl; [| discriminate |].
  - destruct (basel_traffic_light _ _ _) as [light msg].
    destruct (kupiec_test _ _ _ _ _ _) as [k|]; simpl; [|discriminate].
    destruct (int_truediv _ _) as [q|]; simpl; [|discriminate].
    intros [= <-]. split; [|split].
    + intros l Hne. now apply lookup_insert_ne.
    + discriminate.
    + intros _. now rewrite lookup_insert_eq.
  - intros [= <-]. split; [reflexivity|]. split; [reflexivity|congruence].
Qed.

(** A turn of the loop returns when the key is there with a VaR entry and
    the Kupiec test returns. *)
Lemma backtest_step_present (returns : list float)
    (var_metrics : gmap string (metric float))
    (results : gmap string (BacktestReport float))
    (conf : float) (label : string) (r : VarResult float) :
  returns <> [] ->
  label_of conf = Ok label ->
  var_metrics !! ("var_" +:+ label +:+ "_hist") = Some (VarEntry r) ->
  (exists k, kupiec_test py_pow np_log chi2_cdf
               (count_breaches returns (var_return r)) (len returns) conf = Ok k) ->
  exists results',
    backtest_step py_pow np_log chi2_cdf returns var_metrics results conf = Ok results'.
Proof.
  intros Hne Hl Hk [k Hkup]. unfold backtest_step. rewrite Hl; simpl.
  rewrite Hk; simpl.
  destruct (basel_traffic_light _ _ _) as [light msg].
  rewrite Hkup; simpl. unfold int_truediv.
  destruct (Z.eqb_spec (len returns) 0) as [E|_].
  - unfold len in E. destruct returns; [congruence|simpl in E; lia].
  - simpl. eexists; reflexivity.
Qed.
End AggregateFacts.

Section Aggregates.
Variable series_mean : list float -> float.
Variable series_std : list float -> float.
Variable norm_ppf : float -> float.
Variable py_pow : float -> Z -> result float.
Variable np_log : float -> float.
Variable chi2_cdf : float -> float.

(** C9.  An unavailable sub-computation (a method that returns None) never
    makes an aggregate fail; its entry is left out.
    [calculate_all_metrics]: for fewer than 10 returns the result is the
    empty mapping; in general, whenever the methods return, the mapping
    holds under each (method, confidence) key exactly what the method
    returned, and no entry where it returned None.
    [backtest_results] (30 returns or more): a confidence level whose
    historical-VaR key is missing from the metrics is passed over -- with
    both keys missing the result is the empty mapping; a returned mapping
    has a label exactly when the key was present; and a mapping is returned
    whenever, for the keys that are present, the entry is a VaR entry and
    the Kupiec test returns. *)
Theorem aggregates_skip_unavailable (returns : list float) (v : float) :
  ((length returns < 10)%nat ->
     calculate_all_metrics series_mean series_std norm_ppf returns v = Ok ∅) /\
  (forall h95 e95 h99 e99,
      historical_var returns 0.95%float v = Ok h95 ->
      expected_shortfall returns 0.95%float v = Ok e95 ->
      historical_var returns 0.99%float v = Ok h99 ->
      expected_shortfall returns 0.99%float v = Ok e99 ->
      exists m p95 p99,
        calculate_all_metrics series_mean series_std norm_ppf returns v = Ok m /\
        parametric_var series_mean series_std norm_ppf returns 0.95%float v = Ok p95 /\
        parametric_var series_mean series_std norm_ppf returns 0.99%float v = Ok p99 /\
        m !! "var_95%_hist" = VarEntry <$> h95 /\
        m !! "var_95%_param" = VarEntry <$> p95 /\
        m !! "es_95%" = EsEntry <$> e95 /\
        m !! "var_99%_hist" = VarEntry <$> h99 /\
        m !! "var_99%_param" = VarEntry <$> p99 /\
        m !! "es_99%" = EsEntry <$> e99) /\
  (forall var_metrics : gmap string (metric float),
      (30 <= length returns)%nat ->
      var_metrics !! "var_95%_hist" = None ->
      var_metrics !! "var_99%_hist" = None ->
      backtest_results py_pow np_log chi2_cdf returns var_metrics v = Ok (Some ∅)) /\
  (forall (var_metrics : gmap string (metric float)) res,
      backtest_results py_pow np_log chi2_cdf returns var_metrics v = Ok (Some res) ->
      (res !! "95%" = None <-> var_metrics !! "var_95%_hist" = None) /\
      (res !! "99%" = None <-> var_metrics !! "var_99%_hist" = None)) /\
  (forall var_metrics : gmap string (metric float),
      (30 <= length returns)%nat ->
      (forall entry, var_metrics !! "var_95%_hist" = Some entry ->
         exists r k, entry = VarEntry r /\
           kupiec_test py_pow np_log chi2_cdf
             (count_breaches returns (var_return r)) (len returns) 0.95%float = Ok k) ->
      (forall entry, var_metrics !! "var_99%_hist" = Some entry ->
         exists r k, entry = VarEntry r /\
           kupiec_test py_pow np_log chi2_cdf
             (count_breaches returns (var_return r)) (len returns) 0.99%float = Ok k) ->
      exists res,
        backtest_results py_pow np_log chi2_cdf returns var_metrics v = Ok (Some res)).
Proof.
  split; [|split; [|split; [|split]]].
  - intros Hlt.
    unfold calculate_all_metrics, for_each, all_metrics_step.
    rewrite label_of_0_95, label_of_0_99.
    unfold historical_var, parametric_var, expected_shortfall.
    destruct (Nat.ltb_spec (length returns) 10); [reflexivity|lia].
  - intros h95 e95 h99 e99 Hh95 He95 Hh99 He99.
    destruct (parametric_var_returns series_mean series_std norm_ppf
                returns 0.95%float v) as (p95 & Hp95 & _).
    destruct (parametric_var_returns series_mean series_std norm_ppf
                returns 0.99%float v) as (p99 & Hp99 & _).
    unfold calculate_all_metrics, for_each, all_metrics_step.
    rewrite label_of_0_95, label_of_0_99.
    change (lit 0.95) with 0.95%float. change (lit 0.99) with 0.99%float.
    rewrite Hh95, Hp95, He95, Hh99, Hp99, He99. simpl rbind.
    eexists _, p95, p99. split; [reflexivity|].
    split; [reflexivity|]. split; [reflexivity|].
    repeat split; rewrite !lookup_store_if; simpl;
      repeat (case_decide; try discriminate);
      rewrite ?lookup_empty;
      match goal with |- _ = _ <$> ?x => destruct x; reflexivity end.
  - intros var_metrics Hlen H95 H99. unfold backtest_results.
    destruct (Nat.ltb_spec (length returns) 30); [lia|].
    unfold for_each.
    rewrite (backtest_step_missing _ _ _ returns var_metrics ∅ _ "95%"
               label_of_0_95 H95). simpl rbind.
    rewrite (backtest_step_missing _ _ _ returns var_metrics ∅ _ "99%"
               label_of_0_99 H99). reflexivity.
  - intros var_metrics res. unfold backtest_results.
    destruct (length returns <? 30)%nat; [discriminate|].
    unfold for_each.
    destruct (backtest_step _ _ _ _ _ ∅ _) as [r1|] eqn:E1; [|discriminate].
    simpl rbind.
    destruct (backtest_step _ _ _ _ _ r1 _) as [r2|] eqn:E2; [|discriminate].
    simpl rbind. intros [= <-].
    destruct (backtest_step_returns _ _ _ _ _ _ _ _ "95%" label_of_0_95 E1)
      as (Hother1 & Hmiss1 & Hpres1).
    destruct (backtest_step_returns _ _ _ _ _ _ _ _ "99%" label_of_0_99 E2)
      as (Hother2 & Hmiss2 & Hpres2).
    change ("var_" +:+ "95%" +:+ "_hist") with "var_95%_hist" in *.
    change ("var_" +:+ "99%" +:+ "_hist") with "var_99%_hist" in *.
    split.
    + rewrite (Hother2 "95%") by done.
      destruct (var_metrics !! "var_95%_hist") as [entry|] eqn:Hk.
      * split; [|discriminate]. intros Hnone. exfalso. now apply Hpres1.
      * rewrite Hmiss1 by reflexivity. split; reflexivity.
    + destruct (var_metrics !! "var_99%_hist") as [entry|] eqn:Hk.
      * split; [|discriminate]. intros Hnone. exfalso. now apply Hpres2.
      * rewrite Hmiss2 by reflexivity.
        rewrite (Hother1 "99%") by done. split; reflexivity.
  - intros var_metrics Hlen H95 H99. unfold backtest_results.
    destruct (Nat.ltb_spec (length returns) 30); [lia|].
    assert (Hne : returns <> []) by (destruct returns; [simpl in *; lia|discriminate]).
    assert (Hstep : forall results conf label,
               label_of conf = Ok label ->
               (forall entry, var_metrics !! ("var_" +:+ label +:+ "_hist") = Some entry ->
                  exists r k, entry = VarEntry r /\
                    kupiec_test py_pow np_log chi2_cdf
                      (count_breaches returns (var_return r)) (len returns) conf = Ok k) ->
               exists results',
                 backtest_step py_pow np_log chi2_cdf returns var_metrics results conf
                 = Ok results').
    { intros results conf label Hl Hentry.
      destruct (var_metrics !! ("var_" +:+ label +:+ "_hist")) as [entry|] eqn:Hk.
      - destruct (Hentry entry eq_refl) as (r & k & -> & Hkup).
        eapply backtest_step_present; eauto.
      - exists results. eapply backtest_step_missing; eauto. }
    unfold for_each.
    destruct (Hstep ∅ _ "95%" label_of_0_95 H95) as [r1 ->]. cbn [rbind].
    destruct (Hstep r1 _ "99%" label_of_0_99 H99) as [r2 ->]. cbn [rbind].
    eexists; reflexivity.
Qed.
End Aggregates.

(** C9, witness.  Nine returns give the empty metrics mapping; thirty
    returns and metrics without a historical-VaR key give the empty
    report; thirty returns and metrics with the 95% key only give a report
    with no 99% label. *)
Lemma aggregates_skip_unavailable_witness :
  calculate_all_metrics np_mean sample_std norm_ppf_table
    (replicate 9 0.001%float) 1000000%float = Ok ∅ /\
  backtest_results pow_repeated log_special chi2_cdf_at_0
    (replicate 30 0.001%float) ∅ 1000000%float = Ok (Some ∅) /\
  exists res,
    backtest_results pow_repeated log_special chi2_cdf_at_0
      (replicate 30 0.001%float)
      {[ "var_95%_hist" :=
           VarEntry {| var_return := 5%float; var_dollar := 50000%float;
                       confidence := 0.95%float;
                       method := "Historical Simulation" |} ]}
      1000000%float = Ok (Some res).
Proof.
  pose proof (aggregates_skip_unavailable np_mean sample_std norm_ppf_table
                pow_repeated log_special chi2_cdf_at_0) as T.
  split; [|split].
  - apply (proj1 (T (replicate 9 0.001%float) 1000000%float)). simpl; lia.
  - apply (T (replicate 30 0.001%float) 1000000%float); [simpl; lia|reflexivity..].
  - apply (T (replicate 30 0.001%float) 1000000%float).
    + simpl; lia.
    + intros entry. rewrite lookup_singleton_eq. intros [= <-].
      eexists _, _. split; [reflexivity|]. vm_compute. reflexivity.
    + intros entry. rewrite lookup_singleton_ne by done. discriminate.
Defined.

(* ===================================================================== *)
(** * BacktestEngine.count_breaches                                       *)
(* ===================================================================== *)

Section CountBreachesFacts.
Context {F : Type} `{Arith F}.

(** The guard on the empty series changes nothing: the count is the
    number of returns below minus the threshold. *)
Lemma count_breaches_filter (returns : list F) (t : F) :
  count_breaches returns t
  = len (List.filter (fun r => r <? - (t / of_int 100))%A returns).
Proof.
  unfold count_breaches. destruct returns; reflexivity.
Qed.

Lemma filter_length_le {A : Type} (p : A -> bool) (l : list A) :
  (length (List.filter p l) <= length l)%nat.
Proof.
  induction l as [|a l IH]; simpl; [lia|]. destruct (p a); simpl; lia.
Qed.

Lemma filter_length_perm {A : Type} (p : A -> bool) (l l' : list A) :
  Permutation l l' -> length (List.filter p l) = length (List.filter p l').
Proof.
  induction 1 as [|a l l' _ IH|a b l|l l' l'' _ IH1 _ IH2]; simpl.
  - reflexivity.
  - destruct (p a); simpl; lia.
  - destruct (p a), (p b); reflexivity.
  - lia.
Qed.
Lemma filter_refines {A : Type} (p q : A -> bool) (l : list A) :
  (forall x, q x = false -> p x = false) ->
  List.filter p (List.filter q l) = List.filter p l.
Proof.
  intros Hpq. induction l as [|a l IH]; simpl; [reflexivity|].
  destruct (q a) eqn:E; simpl.
  - now rewrite IH.
  - now rewrite (Hpq a E).
Qed.

Lemma filter_none {A : Type} (p : A -> bool) (l : list A) :
  (forall x, p x = false) -> List.filter p l = [].
Proof.
  intros Hp. induction l as [|a l IH]; simpl; [reflexivity|].
  now rewrite (Hp a).
Qed.
End CountBreachesFacts.

Lemma ltb_nan_l (x y : float) :
  PrimFloat.is_nan x = true -> PrimFloat.ltb x y = false.
Proof.
  rewrite Binary64.is_nan_Prim2SF, ltb_spec.
  destruct (Prim2SF x); try discriminate. reflexivity.
Qed.

Lemma ltb_nan_r (x y : float) :
  PrimFloat.is_nan y = true -> PrimFloat.ltb x y = false.
Proof.
  rewrite Binary64.is_nan_Prim2SF, ltb_spec.
  destruct (Prim2SF y); try discriminate. now destruct (Prim2SF x).
Qed.

Lemma nan_threshold (t : float) :
  PrimFloat.is_nan t = true -> PrimFloat.is_nan (- (t / 100))%float = true.
Proof.
  rewrite !Binary64.is_nan_Prim2SF, opp_spec, div_spec.
  destruct (Prim2SF t); try discriminate. reflexivity.
Qed.

(** X1.  [count_breaches] returns a count between 0 and the length of the
    series; the count of a concatenation is the sum of the counts, and the
    count does not depend on the order of the returns.  A NaN return is
    never a breach (dropping the NaN entries leaves the count unchanged),
    and against a NaN threshold nothing is a breach. *)
Theorem count_breaches_counts (returns returns' : list float) (t : float) :
  (0 <= count_breaches returns t <= len returns)%Z /\
  count_breaches (returns ++ returns') t
  = (count_breaches returns t + count_breaches returns' t)%Z /\
  (Permutation returns returns' ->
   count_breaches returns t = count_breaches returns' t) /\
  count_breaches (dropna returns) t = count_breaches returns t /\
  (PrimFloat.is_nan t = true -> count_breaches returns t = 0%Z).
Proof.
  rewrite !count_breaches_filter. unfold len.
  split; [|split; [|split; [|split]]].
  - pose proof (filter_length_le (fun r => r <? - (t / of_int 100))%A returns). lia.
  - rewrite List.filter_app, length_app. lia.
  - intros Hp. f_equal. now apply filter_length_perm.
  - f_equal. unfold dropna. f_equal. apply filter_refines.
    intros x Hx. apply negb_false_iff in Hx. exact (ltb_nan_l x _ Hx).
  - intros Ht. apply nan_threshold in Ht.
    rewrite filter_none; [reflexivity|].
    intros x. exact (ltb_nan_r x _ Ht).
Qed.

(** X1, witness. *)
Lemma count_breaches_counts_witness :
  count_breaches [-0.06; 0.01; -0.02]%float 5%float
  = count_breaches [0.01; -0.02; -0.06]%float 5%float /\
  count_breaches [0.01; -0.06]%float PrimFloat.nan = 0%Z.
Proof.
  split.
  - destruct (count_breaches_counts [-0.06; 0.01; -0.02]%float
                [0.01; -0.02; -0.06]%float 5%float) as (_ & _ & Hperm & _).
    apply Hperm.
    apply (Permutation_cons_append [0.01; -0.02]%float (-0.06)%float).
  - destruct (count_breaches_counts [0.01; -0.06]%float [] PrimFloat.nan)
      as (_ & _ & _ & _ & Hnan).
    apply Hnan. reflexivity.
Defined.

(* ===================================================================== *)
(** * AlertMonitor: recent alerts, invariants of a monitor, reset         *)
(* ===================================================================== *)

Section RecentFacts.
Context {A : Type}.

Lemma py_slice_from_last (l : list A) (n : Z) :
  (1 <= n)%Z -> py_slice_from l (- n) = lastn (Z.to_nat n) l.
Proof.
  intros Hn. unfold py_slice_from, lastn, len.
  destruct (Z.ltb_spec (- n) 0); [|lia]. f_equal. lia.
Qed.

Lemma lastn_lastn (n m : nat) (l : list A) :
  lastn n (lastn m l) = lastn (Nat.min n m) l.
Proof.
  unfold lastn at 1. rewrite length_lastn. unfold lastn.
  rewrite drop_drop. f_equal. lia.
Qed.
End RecentFacts.

(** X2.  [get_recent_alerts(n)] returns, for n >= 1, the last n alerts of
    the ring in insertion order -- all of them when the ring holds fewer
    -- so min(n, ring size) alerts.  For n = 0 it returns the whole ring,
    not an empty list, and for a negative n the ring without its first
    |n| alerts. *)
Theorem get_recent_alerts_spec {F : Type} `{Arith F} (self : Monitor F) (n : Z) :
  ((1 <= n)%Z ->
     get_recent_alerts self n = lastn (Z.to_nat n) (alerts self) /\
     len (get_recent_alerts self n) = Z.min n (len (alerts self))) /\
  get_recent_alerts self 0 = alerts self /\
  ((n < 0)%Z -> get_recent_alerts self n = drop (Z.to_nat (- n)) (alerts self)).
Proof.
  unfold get_recent_alerts. split; [|split].
  - intros Hn. rewrite py_slice_from_last by exact Hn.
    split; [reflexivity|]. unfold len. rewrite length_lastn. lia.
  - unfold py_slice_from. simpl. apply drop_0.
  - intros Hn. unfold py_slice_from.
    destruct (Z.ltb_spec (- n) 0); [lia|reflexivity].
Qed.

(** X2, witness: the last two of three alerts. *)
Lemma get_recent_alerts_spec_witness :
  len (get_recent_alerts
         (run (init 100)
            (replicate 3 (CheckBreach 0.12%float 10%float 15%float "PORTFOLIO" 0)))
         2)
  = Z.min 2
      (len (alerts
              (run (init 100)
                 (replicate 3 (CheckBreach 0.12%float 10%float 15%float "PORTFOLIO" 0))))).
Proof.
  apply (get_recent_alerts_spec
           (run (init 100)
              (replicate 3 (CheckBreach 0.12%float 10%float 15%float "PORTFOLIO" 0)))
           2).
  lia.
Defined.

Section MonitorInvariants.
Context {F : Type} `{Arith F}.

(** X3.  After any sequence of [check_breach] calls on a fresh monitor of
    capacity K, the summary's [recent] list is the last min(5, K) alerts
    emitted, oldest first; on any monitor it is the last 5 alerts of the
    ring. *)
Theorem summary_recent_alerts (K : nat) (cs : list call) (s : Monitor F) :
  recent (get_alert_summary s) = lastn 5 (alerts s) /\
  (forallb is_check cs = true ->
   recent (get_alert_summary (run (init K) cs))
   = lastn (Nat.min 5 K) (emitted (init K) cs)).
Proof.
  assert (Hrecent : forall m : Monitor F,
             recent (get_alert_summary m) = lastn 5 (alerts m)).
  { intros m. unfold get_alert_summary, get_recent_alerts; simpl.
    now rewrite py_slice_from_last by lia. }
  split; [apply Hrecent|].
  intros Hcs. rewrite Hrecent.
  assert (Hinit : (length (alerts (init (F:=F) K)) <= maxlen (init (F:=F) K))%nat)
    by (simpl; lia).
  destruct (run_checks (init K) cs Hinit Hcs) as (Ha & _).
  rewrite Ha. simpl. apply lastn_lastn.
Qed.

(** The alerts a call hands back are genuine breaches. *)
Lemma returned_genuine (self : Monitor F) (c : call) :
  Forall genuine_breach (returned self c).
Proof.
  destruct c as [r v95 v99 sym now| | |]; try constructor.
  unfold returned. rewrite check_breach_returned.
  destruct (fabs (r * of_int 100) >? v99)%A eqn:E99;
    [|destruct (fabs (r * of_int 100) >? v95)%A eqn:E95].
  - constructor; [|constructor]. unfold genuine_breach; simpl.
    split; [left; split; reflexivity|]. split; [exact E99|reflexivity].
  - constructor; [|constructor]. unfold genuine_breach; simpl.
    split; [right; split; reflexivity|]. split; [exact E95|reflexivity].
  - constructor.
Qed.

Lemma step_alerts (s : Monitor F) (c : call) :
  (length (alerts s) <= maxlen s)%nat ->
  alerts (step s c)
  = if is_reset c then [] else lastn (maxlen s) (alerts s ++ returned s c).
Proof.
  intros Hs. destruct c as [r v95 v99 sym now| | |]; simpl;
    rewrite ?app_nil_r, ?lastn_all by exact Hs; try reflexivity.
  rewrite check_breach_state; simpl. now apply fold_left_deque_append.
Qed.

Lemma step_counters (s : Monitor F) (c : call) :
  breach_count_95 (step s c)
  = (if is_reset c then 0 else breach_count_95 s + count_level "95%" (returned s c))%Z /\
  breach_count_99 (step s c)
  = (if is_reset c then 0 else breach_count_99 s + count_level "99%" (returned s c))%Z.
Proof.
  destruct c as [r v95 v99 sym now| | |]; simpl;
    try (unfold count_level, len; simpl; split; lia).
  rewrite check_breach_state; simpl. split; reflexivity.
Qed.

(** X4.  On a monitor reached from a fresh one by any calls (resets
    included) both lifetime counters are non-negative and the ring never
    holds more alerts than the two counters add up to. *)
Theorem ring_within_lifetime_counts (K : nat) (cs : list call) :
  (0 <= breach_count_95 (run (init K) cs))%Z /\
  (0 <= breach_count_99 (run (init K) cs))%Z /\
  (total_alerts (get_alert_summary (run (init K) cs))
   <= n95_breaches (get_alert_summary (run (init K) cs))
      + n99_breaches (get_alert_summary (run (init K) cs)))%Z.
Proof.
  unfold get_alert_summary; simpl.
  assert (Hgen : forall s : Monitor F,
             (length (alerts s) <= maxlen s)%nat ->
             (0 <= breach_count_95 s)%Z -> (0 <= breach_count_99 s)%Z ->
             (len (alerts s) <= breach_count_95 s + breach_count_99 s)%Z ->
             (0 <= breach_count_95 (run s cs))%Z /\
             (0 <= breach_count_99 (run s cs))%Z /\
             (len (alerts (run s cs))
              <= breach_count_95 (run s cs) + breach_count_99 (run s cs))%Z).
  { induction cs as [|c cs IH]; intros s Hs H95 H99 Hlen; simpl; [auto|].
    fold (run (step s c) cs).
    destruct (step_invariant s c Hs) as [Hs' _].
    destruct (step_counters s c) as [E95 E99].
    pose proof (step_alerts s c Hs) as Ea.
    pose proof (count_level_nonneg "95%" (returned s c)).
    pose proof (count_level_nonneg "99%" (returned s c)).
    pose proof (returned_levels s c) as Hlv.
    apply IH; [exact Hs'| | |]; rewrite ?E95, ?E99, ?Ea;
      destruct (is_reset c); try lia.
    - unfold len; simpl; lia.
    - unfold len in *. rewrite length_lastn, length_app. lia. }
  apply Hgen; simpl; unfold len; simpl; lia.
Qed.

(** X5.  Every alert in the ring of a monitor reached from a fresh one is
    a genuine breach: its level is 99% with severity CRITICAL or 95% with
    severity WARNING, the magnitude of its recorded return exceeds its
    recorded threshold, and its excess is the difference of the two. *)
Theorem ring_holds_genuine_breaches (K : nat) (cs : list call) :
  Forall genuine_breach (alerts (run (init K) cs)).
Proof.
  assert (Hgen : forall s : Monitor F,
             (length (alerts s) <= maxlen s)%nat ->
             Forall genuine_breach (alerts s) ->
             Forall genuine_breach (alerts (run s cs))).
  { induction cs as [|c cs IH]; intros s Hs Hall; simpl; [exact Hall|].
    fold (run (step s c) cs).
    destruct (step_invariant s c Hs) as [Hs' _].
    apply IH; [exact Hs'|]. rewrite (step_alerts s c Hs).
    destruct (is_reset c); [constructor|].
    unfold lastn. apply Forall_drop, Forall_app. split; [exact Hall|].
    apply returned_genuine. }
  apply Hgen; simpl; [lia|constructor].
Qed.

(** X6.  A reset forgets the history: the calls made before a
    [reset_counts] have no effect on the state reached after it. *)
Theorem reset_forgets_history (K : nat) (before after : list call) :
  run (init K) (before ++ ResetCounts :: after) = run (init (F:=F) K) after.
Proof.
  assert (Hinit : (length (alerts (init (F:=F) K)) <= maxlen (init (F:=F) K))%nat)
    by (simpl; lia).
  destruct (run_invariant (init K) before Hinit) as [_ Hmax].
  unfold run at 1. rewrite fold_left_app.
  change (run (reset_counts (run (init K) before)) after = run (init K) after).
  unfold reset_counts. rewrite Hmax. reflexivity.
Qed.
End MonitorInvariants.

(** X3, witness. *)
Lemma summary_recent_alerts_witness :
  recent
    (get_alert_summary
       (run (init 3)
          (replicate 7 (CheckBreach 0.12%float 10%float 15%float "PORTFOLIO" 0))))
  = lastn (Nat.min 5 3)
      (emitted (init 3)
         (replicate 7 (CheckBreach 0.12%float 10%float 15%float "PORTFOLIO" 0))).
Proof.
  apply (summary_recent_alerts 3
           (replicate 7 (CheckBreach 0.12%float 10%float 15%float "PORTFOLIO" 0))
           (init 3)).
  vm_compute; reflexivity.
Defined.

(* ===================================================================== *)
(** * VaRCalculator: signs, order of the returns, all or nothing          *)
(* ===================================================================== *)

(** A magnitude and its multiple by 100 are not below zero (they may be
    NaN). *)
Lemma abs_not_negative (x : float) : PrimFloat.ltb (abs x) 0 = false.
Proof.
  rewrite ltb_spec, abs_spec. change (Prim2SF 0) with (S754_zero false).
  destruct (Prim2SF x) as [s|s| |s m e]; reflexivity.
Qed.

Lemma abs_times_100_not_negative (x : float) :
  PrimFloat.ltb (abs x * 100) 0 = false.
Proof.
  rewrite ltb_spec, mul_spec, abs_spec.
  change (Prim2SF 0) with (S754_zero false).
  change (Prim2SF 100) with (S754_finite false 7036874417766400 (-46)).
  destruct (Prim2SF x) as [s|s| |s m e]; try reflexivity.
  simpl SFabs. unfold SF64mul, SFmul, binary_round_aux.
  destruct (shr_fexp _ _ _ _ _) as [a b].
  destruct (shr_fexp _ _ _ _ _) as [a' b'].
  destruct (shr_m a'); try reflexivity.
  destruct (_ <=? _)%Z; reflexivity.
Qed.

Section Magnitudes.
Variable series_mean : list float -> float.
Variable series_std : list float -> float.
Variable norm_ppf : float -> float.

(** X7.  The magnitudes the VaR calculator reports are never negative:
    the return figure of a historical VaR, of a parametric VaR and of an
    Expected Shortfall, and the dollar figure of a historical VaR, are not
    below zero, whatever the returns, the confidence level and the sign of
    the position value. *)
Theorem reported_magnitudes_not_negative (returns : list float) (c v : float) :
  (forall h, historical_var returns c v = Ok (Some h) ->
             PrimFloat.ltb (var_return h) 0 = false /\
             PrimFloat.ltb (var_dollar h) 0 = false) /\
  (forall p, parametric_var series_mean series_std norm_ppf returns c v = Ok (Some p) ->
             PrimFloat.ltb (var_return p) 0 = false) /\
  (forall e, expected_shortfall returns c v = Ok (Some e) ->
             PrimFloat.ltb (es_return e) 0 = false).
Proof.
  split; [|split].
  - intros h. unfold historical_var.
    destruct (length returns <? 10)%nat; [discriminate|].
    destruct (var_index_of _ _) as [k|]; [|discriminate]. simpl.
    destruct (py_index _ _) as [x|]; [|discriminate]. simpl.
    intros [= <-]. simpl. split.
    + apply abs_times_100_not_negative.
    + apply abs_not_negative.
  - intros p. unfold parametric_var.
    destruct (length returns <? 10)%nat; [discriminate|].
    intros [= <-]. simpl. apply abs_times_100_not_negative.
  - intros e. unfold expected_shortfall.
    destruct (length returns <? 10)%nat; [discriminate|].
    destruct (var_index_of _ _) as [k|]; [|discriminate]. simpl.
    intros [= <-]. simpl. apply abs_times_100_not_negative.
Qed.
End Magnitudes.

(** X7, witness: ten gains and a negative position value. *)
Lemma reported_magnitudes_not_negative_witness :
  PrimFloat.ltb 6 0 = false /\ PrimFloat.ltb 60000 0 = false.
Proof.
  apply (proj1 (reported_magnitudes_not_negative np_mean sample_std norm_ppf_table
                  [0.01; 0.02; 0.03; 0.04; 0.05; 0.06; 0.07; 0.08; 0.09; 0.10]%float
                  0.5%float (-1000000)%float)
           {| var_return := 6%float; var_dollar := 60000%float;
              confidence := 0.5%float; method := "Historical Simulation" |}).
  vm_compute; reflexivity.
Defined.

(** Two floats with the same sorting key have the same magnitude: they
    are equal, or zeros of opposite sign. *)
Lemma key_eq_abs (x y : float) :
  sf_key (Prim2SF x) = sf_key (Prim2SF y) -> abs x = abs y.
Proof.
  intros Hk. apply Prim2SF_inj. rewrite !abs_spec.
  destruct (Prim2SF x) as [sx|sx| |sx mx ex], (Prim2SF y) as [sy|sy| |sy my ey];
    try destruct sx; try destruct sy; simpl in *;
    try discriminate; try reflexivity.
  - injection Hk as He Hm. f_equal; lia.
  - injection Hk as He Hm. f_equal; lia.
Qed.

Lemma lex_antisym (a b : Z * Z * Z) : ~ lex_lt b a -> ~ lex_lt a b -> a = b.
Proof.
  destruct a as [[a1 a2] a3], b as [[b1 b2] b3]. unfold lex_lt.
  intros H1 H2. repeat f_equal; lia.
Qed.

(** The keys of a sorted array are the keys of its argument in ascending
    order, so they depend on the argument as a multiset only. *)
Lemma np_sort_keys (l l' : list float) :
  Permutation l l' ->
  (fun x => sf_key (Prim2SF x)) <$> np_sort l
  = (fun x => sf_key (Prim2SF x)) <$> np_sort l'.
Proof.
  intros Hp.
  assert (Hs : forall k : list float,
             StronglySorted (fun a b => ~ lex_lt b a)
               ((fun x => sf_key (Prim2SF x)) <$> np_sort k)).
  { intros k. pose proof (Binary64.np_sort_sorted_binary64 k) as H.
    induction H as [|a s Hs IH Ha]; simpl; constructor; [exact IH|].
    apply Forall_fmap. eapply Forall_impl; [exact Ha|].
    intros y Hy; simpl. unfold np_le in Hy.
    rewrite <- Binary64.np_lt_key. now rewrite Hy. }
  assert (HA : AntiSymm eq (fun a b : Z * Z * Z => ~ lex_lt b a)).
  { intros a b H1 H2. now apply lex_antisym. }
  apply (@StronglySorted_unique _ _ HA _ _ (Hs l) (Hs l')).
  apply fmap_Permutation. now rewrite !np_sort_perm.
Qed.

(** X8.  [historical_var] does not depend on the order in which the
    returns are given: two series that are permutations of each other get
    the same result (the same estimate, the same None, the same
    exception). *)
Theorem historical_var_order_independent (returns returns' : list float)
    (c v : float) :
  Permutation returns returns' ->
  historical_var returns c v = historical_var returns' c v.
Proof.
  intros Hp. pose proof (np_sort_keys _ _ Hp) as Hkeys.
  pose proof (Permutation_length Hp) as Hlen.
  assert (Hlens : len (np_sort returns) = len (np_sort returns')).
  { unfold len. now rewrite !np_sort_length, Hlen. }
  unfold historical_var, var_index_of. rewrite <- Hlen, <- Hlens.
  destruct (length returns <? 10)%nat; [reflexivity|].
  destruct (to_int _) as [k|]; [|reflexivity]. simpl.
  unfold py_index. rewrite <- Hlens.
  destruct (_ <? 0)%Z; [reflexivity|].
  set (j := Z.to_nat _).
  assert (Hj : (fun x => sf_key (Prim2SF x)) <$> (np_sort returns !! j)
               = (fun x => sf_key (Prim2SF x)) <$> (np_sort returns' !! j)).
  { rewrite <- !list_lookup_fmap. now rewrite Hkeys. }
  destruct (np_sort returns !! j) as [x|], (np_sort returns' !! j) as [y|];
    simpl in Hj; try discriminate; [|reflexivity].
  injection Hj as Hxy. apply key_eq_abs in Hxy. simpl.
  rewrite !Binary64.abs_mul, Hxy. reflexivity.
Qed.

(** X8, witness. *)
Lemma historical_var_order_independent_witness :
  historical_var [0.10; 0.02; 0.03; 0.04; 0.05; 0.06; 0.07; 0.08; 0.09; 0.01]%float
    0.5%float 1000000%float
  = historical_var [0.02; 0.03; 0.04; 0.05; 0.06; 0.07; 0.08; 0.09; 0.01; 0.10]%float
      0.5%float 1000000%float.
Proof.
  apply historical_var_order_independent.
  apply (Permutation_cons_append
           [0.02; 0.03; 0.04; 0.05; 0.06; 0.07; 0.08; 0.09; 0.01]%float 0.10%float).
Defined.

Section AllOrNothing.
Variable series_mean : list float -> float.
Variable series_std : list float -> float.
Variable norm_ppf : float -> float.

Lemma calculate_all_metrics_short (returns : list float) (v : float) :
  (length returns < 10)%nat ->
  calculate_all_metrics series_mean series_std norm_ppf returns v = Ok ∅.
Proof.
  intros Hlt. unfold calculate_all_metrics, for_each, all_metrics_step.
  rewrite label_of_0_95, label_of_0_99.
  unfold historical_var, parametric_var, expected_shortfall.
  destruct (Nat.ltb_spec (length returns) 10); [reflexivity|lia].
Qed.

(** X9.  The metrics mapping is never partial.  When
    [calculate_all_metrics] returns, the mapping is empty (fewer than 10
    returns) or holds all six entries -- historical VaR, parametric VaR
    and Expected Shortfall at 95% and at 99% -- and nothing else. *)
Theorem metrics_all_or_nothing (returns : list float) (v : float)
    (m : gmap string (metric float)) :
  calculate_all_metrics series_mean series_std norm_ppf returns v = Ok m ->
  ((length returns < 10)%nat /\ m = ∅) \/
  ((10 <= length returns)%nat /\
   forall key : string,
     is_Some (m !! key) <->
     key ∈ ["var_95%_hist"; "var_95%_param"; "es_95%";
            "var_99%_hist"; "var_99%_param"; "es_99%"]).
Proof.
  destruct (Nat.lt_ge_cases (length returns) 10) as [Hlt|Hge].
  - rewrite (calculate_all_metrics_short returns v Hlt).
    intros [= <-]. left. split; [exact Hlt|reflexivity].
  - intros Hm. right. split; [exact Hge|].
    revert Hm. unfold calculate_all_metrics, for_each, all_metrics_step.
    rewrite label_of_0_95, label_of_0_99.
    unfold historical_var, parametric_var, expected_shortfall.
    rewrite (length_ltb_10 _ Hge).
    destruct (var_index_of (lit 0.95) _) as [k95|]; [|discriminate]. cbn [rbind].
    destruct (py_index _ k95) as [x95|]; [|discriminate]. cbn [rbind store_if].
    destruct (var_index_of (lit 0.99) _) as [k99|]; [|discriminate]. cbn [rbind].
    destruct (py_index _ k99) as [x99|]; [|discriminate]. cbn [rbind store_if].
    intros [= <-]. intros key.
    rewrite !lookup_insert_is_Some', lookup_empty, !elem_of_cons, elem_of_nil.
    change ("var_" +:+ "95%" +:+ "_hist") with "var_95%_hist".
    change ("var_" +:+ "95%" +:+ "_param") with "var_95%_param".
    change ("es_" +:+ "95%") with "es_95%".
    change ("var_" +:+ "99%" +:+ "_hist") with "var_99%_hist".
    change ("var_" +:+ "99%" +:+ "_param") with "var_99%_param".
    change ("es_" +:+ "99%") with "es_99%".
    split.
    + intros [<-|[<-|[<-|[<-|[<-|[<-|[? Hf]]]]]]]; auto 10.
      discriminate.
    + intros [->|[->|[->|[->|[->|[->|[]]]]]]]; auto 10.
Qed.
End AllOrNothing.

(** X9, witness: ten returns; the mapping holds the six entries. *)
Lemma metrics_all_or_nothing_witness :
  exists m : gmap string (metric float),
    calculate_all_metrics np_mean sample_std norm_ppf_table
      [0.012; -0.007; 0.004; -0.031; 0.009; -0.002; 0.015; -0.011; 0.001; 0.006]%float
      1000000%float = Ok m /\
    forall key : string,
      is_Some (m !! key) <->
      key ∈ ["var_95%_hist"; "var_95%_param"; "es_95%";
             "var_99%_hist"; "var_99%_param"; "es_99%"].
Proof.
  destruct (calculate_all_metrics np_mean sample_std norm_ppf_table
              [0.012; -0.007; 0.004; -0.031; 0.009; -0.002; 0.015; -0.011; 0.001;
               0.006]%float 1000000%float) as [m|e] eqn:E;
    [|vm_compute in E; discriminate].
  exists m. split; [reflexivity|].
  destruct (metrics_all_or_nothing np_mean sample_std norm_ppf_table _ _ m E)
    as [[Hlt _]|[_ Hkeys]]; [simpl in Hlt; lia|exact Hkeys].
Defined.

(* ===================================================================== *)
(** * From prices to returns to the risk figures                          *)
(* ===================================================================== *)

Lemma filter_sublist {A : Type} (p : A -> bool) (l : list A) :
  List.filter p l `sublist_of` l.
Proof.
  induction l as [|a l IH]; simpl; [constructor|].
  destruct (p a); now constructor.
Qed.

Lemma filter_all {A : Type} (p : A -> bool) (l : list A) :
  Forall (fun x => p x = true) (List.filter p l).
Proof.
  induction l as [|a l IH]; simpl; [constructor|].
  destruct (p a) eqn:E; [constructor; assumption|exact IH].
Qed.

Section PriceToRisk.
Variable np_log : float -> float.
Hypothesis np_log_nan :
  forall x, PrimFloat.is_nan x = true -> PrimFloat.is_nan (np_log x) = true.

Lemma calculate_returns_log_returns (close : list float) :
  (2 <= length close)%nat ->
  calculate_returns np_log close = Some (dropna (log_returns np_log close)).
Proof.
  intros Hlen. unfold calculate_returns, log_returns, shift1.
  destruct (Nat.ltb_spec (length close) 2); [lia|].
  destruct close as [|p0 rest]; [simpl in Hlen; lia|].
  simpl. rewrite (np_log_nan _ (Binary64.div_nan p0)). simpl.
  rewrite drop_0, zip_with_take_r. f_equal. unfold dropna. f_equal.
  clear. generalize (p0 :: rest).
  induction rest as [|p rest IH]; intros [|q l]; simpl; try reflexivity.
  now rewrite IH.
Qed.

Lemma log_returns_length (close : list float) :
  length (log_returns np_log close) = (length close - 1)%nat.
Proof.
  unfold log_returns. rewrite length_zip_with, length_drop. lia.
Qed.

Lemma calculate_returns_shorter (close returns : list float) :
  calculate_returns np_log close = Some returns ->
  (length returns < length close)%nat.
Proof.
  intros Hr. unfold calculate_returns in Hr.
  destruct (Nat.ltb_spec (length close) 2) as [|Hlen]; [discriminate|].
  fold (calculate_returns np_log close) in Hr.
  assert (Hr' : calculate_returns np_log close = Some returns).
  { unfold calculate_returns.
    destruct (Nat.ltb_spec (length close) 2); [lia|exact Hr]. }
  rewrite (calculate_returns_log_returns close Hlen) in Hr'. injection Hr' as <-.
  pose proof (sublist_length _ _ (filter_sublist
                (fun x => negb (PrimFloat.is_nan x)) (log_returns np_log close))) as Hs.
  unfold dropna. rewrite log_returns_length in Hs. lia.
Qed.

(** X10.  A series [calculate_returns] returns comes from at least 2
    prices, is a subsequence of the log-returns ln(P[t]/P[t-1]) in their
    order, holds no NaN, and is shorter than the price series: n prices
    give at most n - 1 returns. *)
Theorem calculate_returns_output (close returns : list float) :
  calculate_returns np_log close = Some returns ->
  (2 <= length close)%nat /\
  returns `sublist_of` log_returns np_log close /\
  Forall (fun x => PrimFloat.is_nan x = false) returns /\
  (length returns < length close)%nat.
Proof.
  intros Hr.
  assert (Hlen : (2 <= length close)%nat).
  { unfold calculate_returns in Hr.
    destruct (Nat.ltb_spec (length close) 2); [discriminate|assumption]. }
  rewrite (calculate_returns_log_returns close Hlen) in Hr. injection Hr as <-.
  split; [exact Hlen|]. split; [apply filter_sublist|]. split.
  - eapply Forall_impl; [apply filter_all|]. intros x Hx; simpl in Hx.
    now apply negb_true_iff in Hx.
  - apply calculate_returns_shorter. now apply calculate_returns_log_returns.
Qed.

Variable series_mean : list float -> float.
Variable series_std : list float -> float.
Variable norm_ppf : float -> float.
Variable py_pow : float -> Z -> result float.
Variable chi2_cdf : float -> float.

(** X11.  A short price history gives no risk figures.  From 10 prices or
    fewer the returns are fewer than 10, every VaR/ES method returns None
    and the metrics mapping is empty; from 30 prices or fewer
    [backtest_results] returns None, whatever metrics it is handed. *)
Theorem short_history_gives_no_figures (close returns : list float)
    (c v : float) (var_metrics : gmap string (metric float)) :
  calculate_returns np_log close = Some returns ->
  ((length close <= 10)%nat ->
     historical_var returns c v = Ok None /\
     parametric_var series_mean series_std norm_ppf returns c v = Ok None /\
     expected_shortfall returns c v = Ok None /\
     calculate_all_metrics series_mean series_std norm_ppf returns v = Ok ∅) /\
  ((length close <= 30)%nat ->
     backtest_results py_pow np_log chi2_cdf returns var_metrics v = Ok None).
Proof.
  intros Hr.
  pose proof (calculate_returns_shorter close returns Hr) as Hlt.
  split.
  - intros Hc.
    assert (E : (length returns <? 10)%nat = true) by (apply Nat.ltb_lt; lia).
    unfold historical_var, parametric_var, expected_shortfall. rewrite E.
    repeat split. apply calculate_all_metrics_short. lia.
  - intros Hc. unfold backtest_results.
    destruct (Nat.ltb_spec (length returns) 30); [reflexivity|lia].
Qed.
End PriceToRisk.

(** X10, witness: prices 2, 2, 0, 0, 3. *)
Lemma calculate_returns_output_witness :
  ([0; PrimFloat.neg_infinity; PrimFloat.infinity]%float
     `sublist_of` log_returns log_special [2; 2; 0; 0; 3]%float) /\
  (length [0; PrimFloat.neg_infinity; PrimFloat.infinity]%float
   < length [2; 2; 0; 0; 3]%float)%nat.
Proof.
  assert (Hnan : forall x, PrimFloat.is_nan x = true ->
                           PrimFloat.is_nan (log_special x) = true).
  { intros x Hx. unfold log_special. rewrite Hx. reflexivity. }
  destruct (calculate_returns_output log_special Hnan [2; 2; 0; 0; 3]%float
              [0; PrimFloat.neg_infinity; PrimFloat.infinity]%float)
    as (_ & Hsub & _ & Hlen); [vm_compute; reflexivity|].
  split; [exact Hsub|exact Hlen].
Defined.

(** X11, witness: three prices. *)
Lemma short_history_gives_no_figures_witness :
  calculate_all_metrics np_mean sample_std norm_ppf_table [0; 0]%float 1000000%float
  = Ok ∅ /\
  backtest_results pow_repeated log_special chi2_cdf_at_0 [0; 0]%float ∅ 1000000%float
  = Ok None.
Proof.
  assert (Hnan : forall x, PrimFloat.is_nan x = true ->
                           PrimFloat.is_nan (log_special x) = true).
  { intros x Hx. unfold log_special. rewrite Hx. reflexivity. }
  destruct (short_history_gives_no_figures log_special Hnan
              np_mean sample_std norm_ppf_table pow_repeated chi2_cdf_at_0
              [2; 2; 2]%float [0; 0]%float 0.95%float 1000000%float ∅)
    as [H10 H30]; [vm_compute; reflexivity|].
  split.
  - apply H10. simpl; lia.
  - apply H30. simpl; lia.
Defined.

(* ===================================================================== *)
(** * BacktestEngine: edges of the Kupiec test, contents of a report      *)
(* ===================================================================== *)

Section BacktestReports.
Variable py_pow : float -> Z -> result float.
Variable np_log : float -> float.
Variable chi2_cdf : float -> float.

(** X12.  [kupiec_test] with total_days = 0 raises ZeroDivisionError,
    whatever the breach count and the confidence level.  A result it
    returns is consistent: total_days was not 0, the interpretation reads
    'Reject model' exactly when reject_model is set, and the p-value is
    1 - chi2.cdf of the statistic. *)
Theorem kupiec_test_edges (b : Z) (c : float) :
  kupiec_test py_pow np_log chi2_cdf b 0 c = Raise ZeroDivisionError /\
  (forall n r,
      kupiec_test py_pow np_log chi2_cdf b n c = Ok r ->
      n <> 0%Z /\
      interpretation r
      = (if reject_model r then "Reject model" else "Accept model") /\
      p_value r = (1 - chi2_cdf (lr_statistic r))%float).
Proof.
  split; [reflexivity|].
  intros n r. unfold kupiec_test, int_truediv.
  destruct (Z.eqb_spec n 0) as [->|Hn]; [discriminate|]. cbn [rbind].
  destruct ((b =? 0)%Z || (b =? n)%Z).
  - cbn [rbind]. intros [= <-]. repeat split. exact Hn.
  - destruct (py_pow _ b) as [e1|]; [|discriminate]. cbn [rbind].
    destruct (py_pow _ (n - b)) as [e2|]; [|discriminate]. cbn [rbind].
    destruct (py_pow _ b) as [o1|]; [|discriminate]. cbn [rbind].
    destruct (py_pow _ (n - b)) as [o2|]; [|discriminate]. cbn [rbind].
    intros [= <-]. repeat split. exact Hn.
Qed.

(** A turn of the loop adds at most the report of its own level, built
    from the VaR entry under its key. *)
Lemma backtest_step_report (returns : list float)
    (var_metrics : gmap string (metric float))
    (results results' : gmap string (BacktestReport float))
    (conf : float) (label : string) :
  label_of conf = Ok label ->
  backtest_step py_pow np_log chi2_cdf returns var_metrics results conf = Ok results' ->
  forall l report,
    results' !! l = Some report ->
    results !! l = Some report \/
    (l = label /\
     exists r,
       var_metrics !! ("var_" +:+ label +:+ "_hist") = Some (VarEntry r) /\
       breaches report = count_breaches returns (var_return r) /\
       total_days report = len returns /\
       traffic_light report
       = (basel_traffic_light (breaches report) (total_days report) conf).1 /\
       kupiec_test py_pow np_log chi2_cdf (breaches report) (total_days report) conf
       = Ok (kupiec_result report)).
Proof.
  intros Hl. unfold backtest_step. rewrite Hl; cbn [rbind].
  destruct (var_metrics !! _) as [[r|r]|] eqn:Hk; cbn [rbind]; [| discriminate |].
  - destruct (basel_traffic_light _ _ _) as [light msg] eqn:Hb.
    destruct (kupiec_test _ _ _ _ _ _) as [k|] eqn:Hkup; cbn [rbind]; [|discriminate].
    destruct (int_truediv _ _) as [q|]; cbn [rbind]; [|discriminate].
    intros [= <-] l report Hrep.
    destruct (decide (label = l)) as [<-|Hne].
    + rewrite lookup_insert_eq in Hrep. injection Hrep as <-. right.
      split; [reflexivity|]. exists r. simpl. rewrite Hb.
      repeat split; auto.
    + rewrite lookup_insert_ne in Hrep by exact Hne. now left.
  - intros [= <-] l report Hrep. now left.
Qed.

(** X13.  [backtest_results] returns None for fewer than 30 returns.  In a
    mapping it returns, every report sits under the label 95% or 99%, was
    built from the historical-VaR entry of that level, counts the
    breaches of the series against that entry's VaR return -- a count
    between 0 and total_days, total_days being the length of the series --
    and carries the Basel light of that count and the Kupiec result of
    that count. *)
Theorem backtest_results_reports (returns : list float)
    (var_metrics : gmap string (metric float)) (v : float) :
  ((length returns < 30)%nat ->
     backtest_results py_pow np_log chi2_cdf returns var_metrics v = Ok None) /\
  (forall res label report,
      backtest_results py_pow np_log chi2_cdf returns var_metrics v = Ok (Some res) ->
      res !! label = Some report ->
      exists conf r,
        ((label = "95%" /\ conf = 0.95%float) \/ (label = "99%" /\ conf = 0.99%float)) /\
        var_metrics !! ("var_" +:+ label +:+ "_hist") = Some (VarEntry r) /\
        breaches report = count_breaches returns (var_return r) /\
        total_days report = len returns /\
        (30 <= total_days report)%Z /\
        (0 <= breaches report <= total_days report)%Z /\
        traffic_light report
        = (basel_traffic_light (breaches report) (total_days report) conf).1 /\
        kupiec_test py_pow np_log chi2_cdf (breaches report) (total_days report) conf
        = Ok (kupiec_result report)).
Proof.
  split.
  - intros Hlt. unfold backtest_results.
    destruct (Nat.ltb_spec (length returns) 30); [reflexivity|lia].
  - intros res label report. unfold backtest_results.
    destruct (Nat.ltb_spec (length returns) 30) as [|Hlen]; [discriminate|].
    unfold for_each.
    destruct (backtest_step _ _ _ _ _ ∅ _) as [r1|] eqn:E1; [|discriminate].
    cbn [rbind].
    destruct (backtest_step _ _ _ _ _ r1 _) as [r2|] eqn:E2; [|discriminate].
    cbn [rbind]. intros [= <-] Hrep.
    assert (Hfacts : forall (conf : float) (r : VarResult float),
               breaches report = count_breaches returns (var_return r) ->
               total_days report = len returns ->
               (30 <= total_days report)%Z /\
               (0 <= breaches report <= total_days report)%Z).
    { intros conf r -> ->. rewrite count_breaches_filter. unfold len.
      pose proof (filter_length_le
                    (fun x => x <? - (var_return r / of_int 100))%A returns). lia. }
    destruct (backtest_step_report _ _ _ _ _ "99%" label_of_0_99 E2 _ _ Hrep)
      as [Hrep1|(-> & r & Hk & Hb & Ht & Hl & Hkup)].
    + destruct (backtest_step_report _ _ _ _ _ "95%" label_of_0_95 E1 _ _ Hrep1)
        as [Hrep0|(-> & r & Hk & Hb & Ht & Hl & Hkup)].
      * rewrite lookup_empty in Hrep0. discriminate.
      * exists 0.95%float, r. destruct (Hfacts 0.95%float r Hb Ht) as [H30 Hbd].
        split; [left; split; reflexivity|]. repeat split; auto; lia.
    + exists 0.99%float, r. destruct (Hfacts 0.99%float r Hb Ht) as [H30 Hbd].
      split; [right; split; reflexivity|]. repeat split; auto; lia.
Qed.
End BacktestReports.

(** X12, witness: no breach in 250 days, accepted. *)
Lemma kupiec_test_edges_witness :
  250%Z <> 0%Z /\
  "Accept model" = (if false then "Reject model" else "Accept model") /\
  1%float = (1 - chi2_cdf_at_0 0)%float.
Proof.
  apply (proj2 (kupiec_test_edges pow_repeated log_special chi2_cdf_at_0 0 0.95%float)
           250%Z
           {| lr_statistic := 0%float; critical_value := 3.841%float;
              p_value := 1%float; reject_model := false;
              interpretation := "Accept model" |}).
  vm_compute; reflexivity.
Defined.

(** X13, witness: thirty returns of 0.001 and a 95% historical VaR of 2
    percent; the report under 95% counts no breach in 30 days. *)
Lemma backtest_results_reports_witness :
  exists res report,
    backtest_results pow_repeated log_special chi2_cdf_at_0
      (replicate 30 0.001%float)
      {[ "var_95%_hist" :=
           VarEntry {| var_return := 2%float; var_dollar := 20000%float;
                       confidence := 0.95%float;
                       method := "Historical Simulation" |} ]}
      1000000%float = Ok (Some res) /\
    res !! "95%" = Some report /\
    breaches report = 0%Z /\ total_days report = 30%Z /\
    exists conf r,
      (("95%" = "95%" /\ conf = 0.95%float) \/ ("95%" = "99%" /\ conf = 0.99%float)) /\
      ({[ "var_95%_hist" :=
            VarEntry {| var_return := 2%float; var_dollar := 20000%float;
                        confidence := 0.95%float;
                        method := "Historical Simulation" |} ]}
         : gmap string (metric float)) !! ("var_" +:+ "95%" +:+ "_hist")
      = Some (VarEntry r) /\
      breaches report = count_breaches (replicate 30 0.001%float) (var_return r) /\
      total_days report = len (replicate 30 0.001%float) /\
      (30 <= total_days report)%Z /\
      (0 <= breaches report <= total_days report)%Z /\
      traffic_light report
      = (basel_traffic_light (breaches report) (total_days report) conf).1 /\
      kupiec_test pow_repeated log_special chi2_cdf_at_0
        (breaches report) (total_days report) conf
      = Ok (kupiec_result report).
Proof.
  destruct (backtest_results pow_repeated log_special chi2_cdf_at_0
              (replicate 30 0.001%float)
              {[ "var_95%_hist" :=
                   VarEntry {| var_return := 2%float; var_dollar := 20000%float;
                               confidence := 0.95%float;
                               method := "Historical Simulation" |} ]}
              1000000%float) as [[res|]|e] eqn:E;
    [|vm_compute in E; discriminate..].
  destruct (res !! "95%") as [report|] eqn:Hr.
  - exists res, report. split; [reflexivity|]. split; [exact Hr|].
    split; [|split];
      [| |exact (proj2 (backtest_results_reports pow_repeated log_special
                          chi2_cdf_at_0 _ _ _) res "95%" report E Hr)].
    + vm_compute in E. injection E as <-.
      vm_compute in Hr. injection Hr as <-. reflexivity.
    + vm_compute in E. injection E as <-.
      vm_compute in Hr. injection Hr as <-. reflexivity.
  - exfalso. vm_compute in E. injection E as <-. vm_compute in Hr. discriminate.
Defined.

(* ===================================================================== *)
(** * StressTestEngine: a zero position anywhere                          *)
(* ===================================================================== *)

(** X15.  For a catalog scenario, [apply_scenario] raises
    ZeroDivisionError as soon as one position of the map is zero (0, 0.0
    or -0.0), wherever it stands in the map and whatever the other
    positions are. *)
Theorem apply_scenario_raises_on_zero_position {F : Type} `{Arith F}
    (scenario_name : string) (scenario : Scenario F)
    (position_values : list (string * F)) :
  scenarios !! scenario_name = Some scenario ->
  Exists (fun item => (item.2 =? of_int 0)%A = true) position_values ->
  apply_scenario scenario_name position_values = Raise ZeroDivisionError.
Proof.
  intros Hsc Hz. unfold apply_scenario. rewrite Hsc.
  assert (Hloop : forall st,
             for_each (scenario_step scenario) st position_values
             = Raise ZeroDivisionError).
  { induction position_values as [|[symbol p] l IH]; intros st.
    - inversion Hz.
    - destruct (p =? of_int 0)%A eqn:Hp.
      + now apply scenario_loop_zero.
      + destruct st as [results total]. simpl. unfold py_truediv. rewrite Hp.
        simpl. apply IH. inversion Hz as [? ? Hhd|? ? Htl]; subst; [|exact Htl].
        simpl in Hhd. congruence. }
  now rewrite Hloop.
Qed.

(** X15, witness: the zero position comes last, and is -0.0. *)
Lemma apply_scenario_raises_on_zero_position_witness :
  apply_scenario "covid_style"
    [("^NSEI", 10000000%float); ("INFY.NS", (-0)%float)]
  = Raise ZeroDivisionError.
Proof.
  apply (apply_scenario_raises_on_zero_position "covid_style"
           {| name := "COVID-style Crash"; nifty_shock := lit (-0.38);
              equity_correlation := Some (lit 0.95); vol_multiplier := None |}).
  - vm_compute; reflexivity.
  - apply Exists_cons_tl, Exists_cons_hd. reflexivity.
Defined.

Section StressBreakdown.
Context {F : Type} `{Arith F}.

Lemma fold_insert_lookup_inv {V : Type} (f : string * F -> V)
    (l : list (string * F)) (m : gmap string V) (k : string) (v : V) :
  fold_left (fun m item => <[item.1 := f item]> m) l m !! k = Some v ->
  ((k ∉ l.*1) /\ m !! k = Some v) \/
  (exists item, item ∈ l /\ item.1 = k /\ v = f item).
Proof.
  revert m. induction l as [|a l IH]; intros m Hv; simpl in Hv.
  - left. split; [apply not_elem_of_nil|exact Hv].
  - apply IH in Hv as [[Hk Hm]|(item & Hin & Hk & Hv)].
    + destruct (decide (a.1 = k)) as [E|Hne].
      * subst k. rewrite lookup_insert_eq in Hm. injection Hm as <-.
        right. exists a. split; [left|split; reflexivity].
      * rewrite lookup_insert_ne in Hm by exact Hne. left. split; [|exact Hm].
        rewrite fmap_cons, not_elem_of_cons. split; [congruence|exact Hk].
    + right. exists item. split; [now right|now split].
Qed.

Lemma fold_insert_is_Some {V : Type} (f : string * F -> V)
    (l : list (string * F)) (m : gmap string V) (k : string) :
  k ∈ l.*1 \/ is_Some (m !! k) ->
  is_Some (fold_left (fun m item => <[item.1 := f item]> m) l m !! k).
Proof.
  revert m. induction l as [|a l IH]; intros m Hk; simpl.
  - destruct Hk as [Hk|Hk]; [now apply elem_of_nil in Hk|exact Hk].
  - apply IH. rewrite fmap_cons, elem_of_cons in Hk.
    destruct (decide (a.1 = k)) as [E|Hne].
    + right. subst k. rewrite lookup_insert_eq. eauto.
    + destruct Hk as [[Hk|Hk]|Hk]; [congruence|now left|].
      right. now rewrite lookup_insert_ne.
Qed.

(** X14.  For a catalog scenario and positions none of which is zero,
    [apply_scenario] returns a result under the scenario's display name
    whose breakdown has an entry for exactly the instruments of the
    position map; each entry records a position of that instrument and the
    loss of that position under the scenario. *)
Theorem apply_scenario_breakdown_instruments (key : string)
    (scenario : Scenario F) (position_values : list (string * F)) :
  scenarios !! key = Some scenario ->
  Forall (fun item => (item.2 =? of_int 0)%A = false) position_values ->
  exists res,
    apply_scenario key position_values = Ok (Some res) /\
    scenario_name res = name scenario /\
    (forall symbol,
       is_Some (asset_breakdown res !! symbol) <-> symbol ∈ position_values.*1) /\
    (forall symbol entry,
       asset_breakdown res !! symbol = Some entry ->
       (symbol, position entry) ∈ position_values /\
       loss entry = instrument_loss scenario symbol (position entry)).
Proof.
  intros Hsc Hnz. unfold apply_scenario. rewrite Hsc.
  rewrite (scenario_loop scenario position_values ∅ (of_int 0) Hnz). cbn [rbind].
  eexists. split; [reflexivity|]. cbn [scenario_name asset_breakdown fst snd].
  split; [reflexivity|]. split.
  - intros symbol. split.
    + intros [entry Hentry].
      apply fold_insert_lookup_inv in Hentry as [[_ Hm]|(item & Hin & Hk & _)].
      * now rewrite lookup_empty in Hm.
      * subst symbol. apply list_elem_of_fmap. now exists item.
    + intros Hin. apply fold_insert_is_Some. now left.
  - intros symbol entry Hentry.
    apply fold_insert_lookup_inv in Hentry as [[_ Hm]|(item & Hin & Hk & ->)].
    + now rewrite lookup_empty in Hm.
    + subst symbol. destruct item as [symbol p]. simpl. now split.
Qed.
End StressBreakdown.

(** X14, witness: the market crash on the two positions of the
    specification's example. *)
Lemma apply_scenario_breakdown_instruments_witness :
  exists res,
    apply_scenario "market_crash"
      [("^NSEI", 10000000%float); ("RELIANCE.NS", 5000000%float)] = Ok (Some res) /\
    scenario_name res = "Market Crash (-3σ)" /\
    (forall symbol,
       is_Some (asset_breakdown res !! symbol)
       <-> symbol ∈ [("^NSEI", 10000000%float); ("RELIANCE.NS", 5000000%float)].*1) /\
    (forall symbol entry,
       asset_breakdown res !! symbol = Some entry ->
       (symbol, position entry)
         ∈ [("^NSEI", 10000000%float); ("RELIANCE.NS", 5000000%float)] /\
       loss entry
       = instrument_loss
           {| name := "Market Crash (-3σ)"; nifty_shock := lit (-0.15);
              equity_correlation := Some (lit 0.9); vol_multiplier := None |}
           symbol (position entry)).
Proof.
  apply (apply_scenario_breakdown_instruments "market_crash"
           {| name := "Market Crash (-3σ)"; nifty_shock := lit (-0.15);
              equity_correlation := Some (lit 0.9); vol_multiplier := None |}).
  - vm_compute; reflexivity.
  - repeat constructor.
Defined.

(* ===================================================================== *)
(** * MarketDataFeed: market hours                                        *)
(* ===================================================================== *)

Lemma time_ltb_microseconds (a b : pytime) :
  (0 <= minute a < 60)%Z -> (0 <= second a < 60)%Z ->
  (0 <= microsecond a < 1000000)%Z ->
  (0 <= minute b < 60)%Z -> (0 <= second b < 60)%Z ->
  (0 <= microsecond b < 1000000)%Z ->
  time_ltb a b = (microseconds_of_day a <? microseconds_of_day b)%Z.
Proof.
  intros Hma Hsa Hua Hmb Hsb Hub. unfold time_ltb, microseconds_of_day.
  destruct a as [ha ma sa ua], b as [hb mb sb ub]; simpl in *.
  destruct (Z.ltb_spec ha hb), (Z.eqb_spec ha hb),
           (Z.ltb_spec ma mb), (Z.eqb_spec ma mb),
           (Z.ltb_spec sa sb), (Z.eqb_spec sa sb),
           (Z.ltb_spec ua ub); simpl;
    symmetry; first [apply Z.ltb_lt; nia | apply Z.ltb_ge; nia].
Qed.

(** X16.  [is_market_open] answers True exactly for a clock reading from
    Monday to Friday between 09:15:00 and 15:30:00, both ends included.
    [get_market_status] reads the clock itself and then lets
    [is_market_open] read it again: it reports OPEN and the mode LIVE
    exactly when that second reading is open.  When the second reading is
    closed it reports CLOSED, with a reason taken from its own, first
    reading: Weekend on Saturday and Sunday, Pre-market before 09:15 on
    the other days and After-hours from 09:15 on -- so a first reading
    just before 15:30 followed by a second one just after it is reported
    as After-hours.  The time shown is that of the first reading. *)
Theorem market_status_by_time_of_day (now now_inside : clock_reading) :
  (0 <= minute (time_of_day now) < 60)%Z ->
  (0 <= second (time_of_day now) < 60)%Z ->
  (0 <= microsecond (time_of_day now) < 1000000)%Z ->
  (0 <= minute (time_of_day now_inside) < 60)%Z ->
  (0 <= second (time_of_day now_inside) < 60)%Z ->
  (0 <= microsecond (time_of_day now_inside) < 1000000)%Z ->
  (is_market_open now_inside = true <->
   (weekday now_inside < 5 /\
    33300000000 <= microseconds_of_day (time_of_day now_inside) <= 55800000000)%Z) /\
  (status (get_market_status now now_inside) = "OPEN"
   <-> is_market_open now_inside = true) /\
  (mode (get_market_status now now_inside) = "LIVE"
   <-> is_market_open now_inside = true) /\
  (is_market_open now_inside = false ->
   status (get_market_status now now_inside) = "CLOSED" /\
   ((5 <= weekday now)%Z ->
    message (get_market_status now now_inside) = "Market closed (Weekend)") /\
   ((weekday now < 5)%Z ->
    (microseconds_of_day (time_of_day now) < 33300000000)%Z ->
    message (get_market_status now now_inside) = "Market closed (Pre-market)") /\
   ((weekday now < 5)%Z ->
    (33300000000 <= microseconds_of_day (time_of_day now))%Z ->
    message (get_market_status now now_inside) = "Market closed (After-hours)")) /\
  time_text (get_market_status now now_inside) = strftime_hms (time_of_day now).
Proof.
  intros Hm Hs Hu Hm' Hs' Hu'.
  assert (L0 : time_ltb (time_of_day now) market_open
               = (microseconds_of_day (time_of_day now) <? 33300000000)%Z).
  { apply time_ltb_microseconds; simpl; lia. }
  assert (L1 : time_ltb (time_of_day now_inside) market_open
               = (microseconds_of_day (time_of_day now_inside) <? 33300000000)%Z).
  { apply time_ltb_microseconds; simpl; lia. }
  assert (L2 : time_ltb market_close (time_of_day now_inside)
               = (55800000000 <? microseconds_of_day (time_of_day now_inside))%Z).
  { apply time_ltb_microseconds; simpl; lia. }
  assert (Hopen : is_market_open now_inside = true <->
                  (weekday now_inside < 5 /\
                   33300000000 <= microseconds_of_day (time_of_day now_inside)
                   <= 55800000000)%Z).
  { unfold is_market_open, time_leb. rewrite L1, L2.
    destruct (Z.leb_spec 5 (weekday now_inside)),
             (Z.ltb_spec (microseconds_of_day (time_of_day now_inside)) 33300000000),
             (Z.ltb_spec 55800000000 (microseconds_of_day (time_of_day now_inside)));
      simpl; split; intros; try lia; try discriminate; reflexivity. }
  split; [exact Hopen|]. clear Hopen L1 L2.
  unfold get_market_status. rewrite L0.
  destruct (is_market_open now_inside); cbn [status mode message time_text].
  - repeat split; intros; try reflexivity; discriminate.
  - split; [split; discriminate|]. split; [split; discriminate|].
    split; [|reflexivity]. intros _. split; [reflexivity|].
    destruct (Z.leb_spec 5 (weekday now)),
             (Z.ltb_spec (microseconds_of_day (time_of_day now)) 33300000000);
      repeat split; intros; try lia; reflexivity.
Qed.

(** X16, witness: on a Wednesday the first reading is 15:29:59.999999 and
    the second 15:30:00.000001; the status is CLOSED, After-hours. *)
Lemma market_status_by_time_of_day_witness :
  status
    (get_market_status
       {| weekday := 2;
          time_of_day := {| hour := 15; minute := 29; second := 59;
                            microsecond := 999999 |} |}
       {| weekday := 2;
          time_of_day := {| hour := 15; minute := 30; second := 0;
                            microsecond := 1 |} |})
  = "CLOSED" /\
  message
    (get_market_status
       {| weekday := 2;
          time_of_day := {| hour := 15; minute := 29; second := 59;
                            microsecond := 999999 |} |}
       {| weekday := 2;
          time_of_day := {| hour := 15; minute := 30; second := 0;
                            microsecond := 1 |} |})
  = "Market closed (After-hours)".
Proof.
  destruct (market_status_by_time_of_day
              {| weekday := 2;
                 time_of_day := {| hour := 15; minute := 29; second := 59;
                                   microsecond := 999999 |} |}
              {| weekday := 2;
                 time_of_day := {| hour := 15; minute := 30; second := 0;
                                   microsecond := 1 |} |})
    as (_ & _ & _ & Hclosed & _);
    [cbv [time_of_day minute second microsecond]; lia..|].
  destruct Hclosed as (Hstatus & _ & _ & Hafter); [reflexivity|].
  split; [exact Hstatus|].
  apply Hafter;
    cbv [microseconds_of_day weekday time_of_day hour minute second microsecond];
    lia.
Defined.

(* ===================================================================== *)
(** * MarketDataFeed: fetching and the latest prices                      *)
(* ===================================================================== *)

(** X17.  [fetch_data] returns None exactly when the historical request
    failed or came back empty.  A frame it returns is never empty: it is
    the historical frame, or -- only while the market is open and the
    one-minute request succeeded with a non-empty frame -- the historical
    frame followed by one row, the last row of the one-minute frame. *)
Theorem fetch_data_outcomes (history : remote (list Row)) (open_now : bool)
    (live : remote (list Row)) :
  (fetch_data history open_now live = None <->
   history = Failed \/ history = Fetched []) /\
  (forall df, fetch_data history open_now live = Some df ->
     df <> [] /\
     exists hist,
       history = Fetched hist /\
       (df = hist \/
        (open_now = true /\
         exists live_df new_row,
           live = Fetched live_df /\ last live_df = Some new_row /\
           df = hist ++ [new_row]))).
Proof.
  unfold fetch_data. destruct history as [hist|].
  - destruct hist as [|r0 hist]; simpl.
    + split; [split; auto|discriminate].
    + split.
      * split; [|intros [|]; discriminate].
        destruct open_now; [|discriminate].
        destruct live as [live_df|]; [|discriminate].
        destruct (last live_df); discriminate.
      * intros df Hdf. destruct open_now.
        -- destruct live as [live_df|].
           ++ destruct (last live_df) as [new_row|] eqn:El; injection Hdf as <-.
              ** split; [discriminate|]. eexists. split; [reflexivity|]. right.
                 split; [reflexivity|]. eauto.
              ** split; [discriminate|]. eauto.
           ++ injection Hdf as <-. split; [discriminate|]. eauto.
        -- injection Hdf as <-. split; [discriminate|]. eauto.
  - split; [split; auto|discriminate].
Qed.

(** X17, witness: the market is open and the one-minute frame has a row. *)
Lemma fetch_data_outcomes_witness :
  [ {| stamp := 1; close := 100; open_price := 99; high := 101; low := 98;
       volume := 5000 |};
    {| stamp := 2; close := 102; open_price := 100; high := 103; low := 100;
       volume := 10 |} ] <> [] /\
  exists hist,
    Fetched [ {| stamp := 1; close := 100%float; open_price := 99%float;
                 high := 101%float; low := 98%float; volume := 5000%float |} ]
    = Fetched hist /\
    ([ {| stamp := 1; close := 100; open_price := 99; high := 101; low := 98;
          volume := 5000 |};
       {| stamp := 2; close := 102; open_price := 100; high := 103; low := 100;
          volume := 10 |} ] = hist \/
     (true = true /\
      exists live_df new_row,
        Fetched [ {| stamp := 2; close := 102%float; open_price := 100%float;
                     high := 103%float; low := 100%float; volume := 10%float |} ]
        = Fetched live_df /\
        last live_df = Some new_row /\
        [ {| stamp := 1; close := 100; open_price := 99; high := 101; low := 98;
             volume := 5000 |};
          {| stamp := 2; close := 102; open_price := 100; high := 103; low := 100;
             volume := 10 |} ] = hist ++ [new_row])).
Proof.
  apply (proj2 (fetch_data_outcomes
                  (Fetched [ {| stamp := 1; close := 100%float; open_price := 99%float;
                                high := 101%float; low := 98%float;
                                volume := 5000%float |} ])
                  true
                  (Fetched [ {| stamp := 2; close := 102%float; open_price := 100%float;
                                high := 103%float; low := 100%float;
                                volume := 10%float |} ]))).
  reflexivity.
Defined.

Lemma fold_fetch_lookup (fetch : string -> option (list Row))
    (symbols : list string) (data : gmap string (list Row)) (symbol : string) :
  fold_left (fun data symbol =>
               match fetch symbol with
               | Some df => <[symbol := df]> data
               | None => data
               end) symbols data !! symbol
  = if decide (symbol ∈ symbols) then
      match fetch symbol with
      | Some df => Some df
      | None => data !! symbol
      end
    else data !! symbol.
Proof.
  revert data. induction symbols as [|a l IH]; intros data; simpl.
  - destruct (decide (symbol ∈ [])) as [Hin|_]; [|reflexivity].
    now apply elem_of_nil in Hin.
  - rewrite IH.
    assert (Ha : (match fetch a with
                  | Some df => <[a := df]> data
                  | None => data
                  end) !! symbol
                 = if decide (a = symbol) then
                     match fetch symbol with
                     | Some df => Some df
                     | None => data !! symbol
                     end
                   else data !! symbol).
    { destruct (decide (a = symbol)) as [->|Hne].
      - destruct (fetch symbol); [apply lookup_insert_eq|reflexivity].
      - destruct (fetch a); [now apply lookup_insert_ne|reflexivity]. }
    rewrite Ha.
    destruct (decide (symbol ∈ l)) as [Hl|Hl],
             (decide (symbol ∈ a :: l)) as [Hal|Hal],
             (decide (a = symbol)) as [E|E]; subst;
      try reflexivity;
      try (exfalso; apply Hal; (now left) || (now right));
      try (destruct (fetch symbol); reflexivity).
    apply elem_of_cons in Hal as [->|Hal]; congruence.
Qed.

(** X18.  After [get_all_assets_data] the feed holds, for each of the five
    portfolio symbols, the frame just fetched when the fetch succeeded and
    the frame it held before when the fetch failed (stale data is kept,
    not dropped); entries under other keys are untouched, and the time of
    the update is recorded. *)
Theorem get_all_assets_data_keeps_stale (fetch : string -> option (list Row))
    (now : Z) (self : Feed) (symbol : string) :
  current_data (get_all_assets_data fetch now self) !! symbol
  = (if decide (symbol ∈ asset_symbols) then
       match fetch symbol with
       | Some df => Some df
       | None => current_data self !! symbol
       end
     else current_data self !! symbol) /\
  last_update (get_all_assets_data fetch now self) = Some now.
Proof.
  split; [|reflexivity]. unfold get_all_assets_data; cbn [current_data].
  apply fold_fetch_lookup.
Qed.

Lemma latest_of_one_row (df : list Row) :
  length df = 1%nat -> latest_of df = Raise IndexError.
Proof.
  destruct df as [|r [|r' df]]; try discriminate. reflexivity.
Qed.

Lemma latest_of_other (df : list Row) :
  length df <> 1%nat -> latest_of df = Ok (info_of df).
Proof.
  intros Hlen. unfold latest_of, info_of.
  destruct (Nat.eqb_spec (length df) 0) as [E|E].
  - destruct df; [reflexivity|discriminate].
  - assert (H2 : (2 <= length df)%nat) by lia.
    rewrite !last_lookup, length_take. rewrite lookup_take_lt by lia.
    unfold py_index, len.
    destruct (Z.ltb_spec (-1) 0); [|lia]. destruct (Z.ltb_spec (-2) 0); [|lia].
    destruct (Z.ltb_spec (-1 + Z.of_nat (length df)) 0); [lia|].
    destruct (Z.ltb_spec (-2 + Z.of_nat (length df)) 0); [lia|].
    replace (Z.to_nat (-1 + Z.of_nat (length df))) with (pred (length df)) by lia.
    replace (Z.to_nat (-2 + Z.of_nat (length df))) with (length df - 2)%nat by lia.
    replace (pred ((length df - 1) `min` length df)) with (length df - 2)%nat by lia.
    destruct (df !! pred (length df)) as [x|] eqn:Ex; cbn [rbind].
    + destruct (df !! (length df - 2)%nat) as [y|] eqn:Ey;
        cbn [rbind]; [reflexivity|].
      apply lookup_ge_None in Ey. lia.
    + apply lookup_ge_None in Ex. lia.
Qed.

Lemma latest_loop_raises (l : list (string * list Row))
    (prices : gmap string PriceInfo) :
  Exists (fun item => length item.2 = 1%nat) l ->
  for_each latest_prices_step prices l = Raise IndexError.
Proof.
  revert prices. induction l as [|item l IH]; intros prices Hex; [inversion Hex|].
  simpl. unfold latest_prices_step at 1.
  destruct (Nat.eq_dec (length item.2) 1) as [E|E].
  - now rewrite (latest_of_one_row _ E).
  - rewrite (latest_of_other _ E). cbn [rbind]. apply IH.
    inversion Hex; subst; [contradiction|assumption].
Qed.

Lemma latest_loop_returns (l : list (string * list Row))
    (prices : gmap string PriceInfo) :
  Forall (fun item => length item.2 <> 1%nat) l ->
  NoDup l.*1 ->
  exists prices',
    for_each latest_prices_step prices l = Ok prices' /\
    forall symbol,
      prices' !! symbol
      = match list_find (fun item => item.1 = symbol) l with
        | Some (_, item) =>
            match info_of item.2 with
            | Some i => Some i
            | None => prices !! symbol
            end
        | None => prices !! symbol
        end.
Proof.
  revert prices. induction l as [|item l IH]; intros prices Hall Hnd.
  - exists prices. split; [reflexivity|]. intros symbol. reflexivity.
  - apply Forall_cons in Hall as [Hitem Hall].
    rewrite fmap_cons in Hnd. apply NoDup_cons in Hnd as [Hnotin Hnd].
    simpl. unfold latest_prices_step at 1.
    rewrite (latest_of_other _ Hitem). cbn [rbind].
    destruct (IH (match info_of item.2 with
                  | Some i => <[item.1 := i]> prices
                  | None => prices
                  end) Hall Hnd) as (prices' & Hrun & Hlook).
    exists prices'. split; [exact Hrun|]. intros symbol. rewrite Hlook.
    destruct (decide (item.1 = symbol)) as [<-|Hne].
    + destruct (list_find _ l) as [[i item']|] eqn:Hf.
      * apply list_find_Some in Hf as (Hin & Hkey & _). exfalso. apply Hnotin.
        rewrite <- Hkey. apply list_elem_of_fmap. exists item'. split; [reflexivity|].
        eapply list_elem_of_lookup_2. exact Hin.
      * simpl. destruct (info_of item.2); [apply lookup_insert_eq|reflexivity].
    + simpl. destruct (list_find _ l) as [[i item']|] eqn:Hf; simpl.
      * destruct (info_of item'.2); [reflexivity|].
        destruct (info_of item.2); [now apply lookup_insert_ne|reflexivity].
      * destruct (info_of item.2); [now apply lookup_insert_ne|reflexivity].
Qed.

(** X19.  [get_latest_prices] first refreshes an empty feed.  On the
    frames the feed then holds: if one of them has exactly one row the
    call raises IndexError (the change needs the close before the last);
    otherwise it returns an entry for every stored frame of two rows or
    more -- the last close, its index, and the percentage change from the
    close before -- and no entry for any other symbol. *)
Theorem get_latest_prices_spec (fetch : string -> option (list Row)) (now : Z)
    (self : Feed) :
  (get_latest_prices fetch now self).1
  = (if decide (current_data self = ∅) then get_all_assets_data fetch now self
     else self) /\
  ((exists symbol df,
       current_data (get_latest_prices fetch now self).1 !! symbol = Some df /\
       length df = 1%nat) ->
   (get_latest_prices fetch now self).2 = Raise IndexError) /\
  ((forall symbol df,
       current_data (get_latest_prices fetch now self).1 !! symbol = Some df ->
       length df <> 1%nat) ->
   exists prices,
     (get_latest_prices fetch now self).2 = Ok prices /\
     forall symbol,
       prices !! symbol
       = current_data (get_latest_prices fetch now self).1 !! symbol ≫= info_of).
Proof.
  unfold get_latest_prices. cbn [fst snd].
  set (feed := if decide (current_data self = ∅)
               then get_all_assets_data fetch now self else self).
  split; [reflexivity|]. split.
  - intros (symbol & df & Hdf & Hlen). apply latest_loop_raises.
    apply Exists_exists. exists (symbol, df). split; [|exact Hlen].
    now apply elem_of_map_to_list.
  - intros Hall.
    destruct (latest_loop_returns (map_to_list (current_data feed)) ∅)
      as (prices & Hrun & Hlook).
    + apply Forall_forall. intros [symbol df] Hin.
      apply elem_of_map_to_list in Hin. simpl. now apply (Hall symbol df).
    + apply NoDup_fst_map_to_list.
    + exists prices. split; [exact Hrun|]. intros symbol. rewrite Hlook.
      destruct (list_find _ _) as [[i [s df]]|] eqn:Hf.
      * apply list_find_Some in Hf as (Hin & Hkey & _). simpl in Hkey. subst s.
        apply list_elem_of_lookup_2, elem_of_map_to_list in Hin.
        rewrite Hin. simpl. now destruct (info_of df).
      * destruct (current_data feed !! symbol) as [df|] eqn:Hdf; [|reflexivity].
        exfalso. apply elem_of_map_to_list in Hdf.
        eapply list_find_None in Hf. rewrite Forall_forall in Hf.
        apply (Hf _ Hdf). reflexivity.
Qed.

(** X19, witness: a feed holding one frame of a single row. *)
Lemma get_latest_prices_spec_witness :
  (get_latest_prices (fun _ => None) 0
     {| current_data :=
          {[ "TCS.NS" := [ {| stamp := 1; close := 100%float; open_price := 99%float;
                              high := 101%float; low := 98%float;
                              volume := 5000%float |} ] ]};
        last_update := None |}).2
  = Raise IndexError.
Proof.
  apply (get_latest_prices_spec (fun _ => None) 0
           {| current_data :=
                {[ "TCS.NS" := [ {| stamp := 1; close := 100%float;
                                    open_price := 99%float; high := 101%float;
                                    low := 98%float; volume := 5000%float |} ] ]};
              last_update := None |}).
  exists "TCS.NS", [ {| stamp := 1; close := 100%float; open_price := 99%float;
                        high := 101%float; low := 98%float; volume := 5000%float |} ].
  split; [vm_compute|]; reflexivity.
Defined.
